(** * Ingestion and indexing pipeline of acm_scholar_cli

    A shallow embedding of [acm_scholar_cli/core/downloader.py]
    (class [PaperDownloader]) and [acm_scholar_cli/db/surrealdb.py]
    (class [SurrealDBClient]), with the properties the design document
    states about them.

    Conventions.  Python integers are [Z].  A [str] is a [string] whose
    characters are read as the code points below 256 (the chunker itself
    is generic in the character type); the literal messages of the source
    that hold other characters are kept as their UTF-8 bytes, and are only
    printed or wrapped, never inspected.  A dict from the metadata service
    is an association list of [Py.value].  A call returns, raises, or is
    still pending: the [while] loop of the chunker runs on fuel, and its
    result says whether the loop has been left.  Effects are explicit: the
    downloader threads a world of files, console lines and progress
    updates; the database client threads the list of queries sent.
    What the installed libraries and the network do is a parameter of each
    function that uses them. *)

From Stdlib Require Import ZArith Lia Ascii String DecimalString.
From stdpp Require Import base list strings gmap.

Local Open Scope Z_scope.
Local Set Warnings "-register-all".

(** ** Python primitives *)

Module Py.

(** [len(s)] as a Python integer. *)
Definition len {A} (s : list A) : Z := Z.of_nat (length s).

(** One bound of a slice [s[i:j]]: a negative index counts from the end,
    and the result is clamped to [0 .. len(s)]. *)
Definition slice_index (n i : Z) : Z :=
  if i <? 0 then Z.max (i + n) 0 else Z.min i n.

(** [s[start:stop]], empty when the clamped bounds cross. *)
Definition slice {A} (s : list A) (start stop : Z) : list A :=
  let lo := slice_index (len s) start in
  let hi := slice_index (len s) stop in
  take (Z.to_nat (hi - lo)) (drop (Z.to_nat lo) s).

(** *** Exceptions and results *)

(** The exceptions the two modules can meet.  [LibraryError] is an
    exception raised inside a library (httpx, pypdf, surrealdb, the
    file system), given by its class name; [Exception_ ctx e] is
    [raise Exception(f"<ctx>: {e}")]. *)
Inductive exn :=
| NameError (name : string)
| ImportError (name : string)
| IndexError
| KeyError
| TypeError
| AttributeError
| LibraryError (cls msg : string)
| KeyboardInterrupt
| Exception_ (context : string) (cause : exn).

Definition exn_class (e : exn) : string :=
  match e with
  | NameError _ => "NameError"
  | ImportError _ => "ImportError"
  | IndexError => "IndexError"
  | KeyError => "KeyError"
  | TypeError => "TypeError"
  | AttributeError => "AttributeError"
  | LibraryError cls _ => cls
  | KeyboardInterrupt => "KeyboardInterrupt"
  | Exception_ _ _ => "Exception"
  end.

(** What [except Exception] catches: everything here but
    [KeyboardInterrupt], which derives from [BaseException] only. *)
Definition is_Exception (e : exn) : bool :=
  match e with KeyboardInterrupt => false | _ => true end.

(** What [except ImportError] catches. *)
Definition is_ImportError (e : exn) : bool :=
  match e with ImportError _ => true | _ => false end.

(** A call returns a value, raises, or (for a call that runs a loop on
    fuel) is still pending when the fuel is spent. *)
Inductive outcome (A : Type) :=
| Ok (a : A)
| Raise (e : exn)
| Pending.
Arguments Ok {A} a.
Arguments Raise {A} e.
Arguments Pending {A}.

Definition bind {A B} (x : outcome A) (k : A -> outcome B) : outcome B :=
  match x with
  | Ok a => k a
  | Raise e => Raise e
  | Pending => Pending
  end.

(** *** Characters and strings *)

Definition chars (s : string) : list ascii := list_ascii_of_string s.
Definition of_chars (l : list ascii) : string := string_of_list_ascii l.
Definition code (c : ascii) : N := N_of_ascii c.
Definition between (lo hi n : N) : bool := ((lo <=? n) && (n <=? hi))%N.

(** [c.isalnum()] on the code points below 256: ASCII digits and
    letters, and the Latin-1 letters, superscript digits and fractions. *)
Definition isalnum_char (c : ascii) : bool :=
  let n := code c in
  between 48 57 n || between 65 90 n || between 97 122 n
  || (n =? 170)%N || between 178 179 n || (n =? 181)%N
  || between 185 186 n || between 188 190 n
  || between 192 214 n || between 216 246 n || between 248 255 n.

(** [s.isalnum()]: a non-empty string of such characters. *)
Definition isalnum (s : string) : bool :=
  match chars s with
  | [] => false
  | l => forallb isalnum_char l
  end.

(** [c.isspace()] on the code points below 256. *)
Definition isspace_char (c : ascii) : bool :=
  let n := code c in
  between 9 13 n || between 28 32 n || (n =? 133)%N || (n =? 160)%N.

(** [s.strip()]: leading and trailing whitespace removed. *)
Fixpoint lstrip_chars (l : list ascii) : list ascii :=
  match l with
  | c :: l' => if isspace_char c then lstrip_chars l' else l
  | [] => []
  end.
Definition strip (s : string) : string :=
  of_chars (rev (lstrip_chars (rev (lstrip_chars (chars s))))).

(** [s.replace(old, new)] for a one-character [old]. *)
Definition replace (old : ascii) (new : string) (s : string) : string :=
  of_chars (flat_map (fun c => if Ascii.eqb c old then chars new else [c])
                     (chars s)).

(** [s.split()]: the maximal runs of non-whitespace characters.
    [cur] is the run being read, reversed. *)
Fixpoint split_chars (cur : list ascii) (l : list ascii) : list string :=
  match l with
  | [] => match cur with [] => [] | _ => [of_chars (rev cur)] end
  | c :: l' =>
      if isspace_char c then
        match cur with
        | [] => split_chars [] l'
        | _ => of_chars (rev cur) :: split_chars [] l'
        end
      else split_chars (c :: cur) l'
  end.
Definition split (s : string) : list string := split_chars [] (chars s).

(** [sep.join(parts)]. *)
Fixpoint join (sep : string) (parts : list string) : string :=
  match parts with
  | [] => EmptyString
  | [p] => p
  | p :: rest => p +:+ sep +:+ join sep rest
  end.

(** [c in s] for a one-character [c]. *)
Definition contains (c : ascii) (s : string) : bool :=
  existsb (Ascii.eqb c) (chars s).

(** [str(n)] for an integer. *)
Definition str_int (n : Z) : string := NilZero.string_of_int (Z.to_int n).

(** *** Values of a JSON-like dict *)

(** A paper is the dict the metadata service returned: strings,
    integers, booleans, [None], lists and dicts with string keys (in
    insertion order). *)
Inductive value :=
| VNone
| VBool (b : bool)
| VInt (n : Z)
| VStr (s : string)
| VList (l : list value)
| VDict (d : list (string * value)).

Definition dict := list (string * value).

(** [d.get(k, default)] on a dict. *)
Fixpoint dict_get (d : dict) (k : string) (default : value) : value :=
  match d with
  | [] => default
  | (k', v) :: d' => if String.eqb k' k then v else dict_get d' k default
  end.

(** [v.get(k, default)] on any value: only a dict has the method. *)
Definition get (v : value) (k : string) (default : value) : outcome value :=
  match v with
  | VDict d => Ok (dict_get d k default)
  | _ => Raise AttributeError
  end.

(** Truth value, as [if v:] and [not v] take it. *)
Definition truthy (v : value) : bool :=
  match v with
  | VNone => false
  | VBool b => b
  | VInt n => negb (n =? 0)
  | VStr s => negb (String.eqb s EmptyString)
  | VList l => match l with [] => false | _ => true end
  | VDict d => match d with [] => false | _ => true end
  end.

Definition quote1 : ascii := ascii_of_nat 39.
Definition quote2 : ascii := ascii_of_nat 34.
Definition backslash : ascii := ascii_of_nat 92.

Definition hex_digit (n : N) : ascii :=
  nth (N.to_nat n) (chars "0123456789abcdef") "0"%char.

(** One character of [repr(s)], inside the quotes [q]. *)
Definition repr_char (q c : ascii) : list ascii :=
  let n := code c in
  if Ascii.eqb c q || Ascii.eqb c backslash then [backslash; c]
  else if (n =? 9)%N then [backslash; "t"%char]
  else if (n =? 10)%N then [backslash; "n"%char]
  else if (n =? 13)%N then [backslash; "r"%char]
  else if (n <? 32)%N || between 127 160 n || (n =? 173)%N then
    [backslash; "x"%char; hex_digit (n / 16); hex_digit (n mod 16)]
  else [c].

(** [repr(s)]: single quotes, unless the string has a single quote and
    no double quote. *)
Definition repr_str (s : string) : string :=
  let q := if contains quote1 s && negb (contains quote2 s)
           then quote2 else quote1 in
  of_chars (q :: flat_map (repr_char q) (chars s) ++ [q]).

(** [repr(v)]. *)
Fixpoint repr (v : value) : string :=
  match v with
  | VNone => "None"
  | VBool true => "True"
  | VBool false => "False"
  | VInt n => str_int n
  | VStr s => repr_str s
  | VList l => "[" +:+ join ", " (map repr l) +:+ "]"
  | VDict d =>
      "{" +:+ join ", " (map (fun kv => repr_str (fst kv) +:+ ": " +:+ repr (snd kv)) d)
          +:+ "}"
  end.

(** [str(v)], which is also what an f-string field [{v}] renders. *)
Definition str_ (v : value) : string :=
  match v with
  | VStr s => s
  | _ => repr v
  end.

End Py.

(** ** [PaperDownloader._chunk_text] *)

Module Chunker.

Section Loop.
Context {A : Type}.

(** The two variables the loop updates. *)
Record loop_state := LoopState {
  start : Z;
  chunks : list (list A)
}.

(** Either the function has returned its list, or the loop condition
    still holds in the given state after the iterations allowed. *)
Inductive run :=
| Returned (cs : list (list A))
| Running (st : loop_state).

(** The three assignments of the loop body. *)
Definition body (text : list A) (chunk_size overlap : Z)
    (st : loop_state) : loop_state :=
  let text_len := Py.len text in
  let end_ := Z.min (start st + chunk_size) text_len in
  {| start := end_ - overlap;
     chunks := chunks st ++ [Py.slice text (start st) end_] |}.

(** [while start < text_len: body; if start >= text_len: break],
    followed by [return chunks]; at most [fuel] iterations. *)
Fixpoint loop (fuel : nat) (text : list A) (chunk_size overlap : Z)
    (st : loop_state) : run :=
  if start st <? Py.len text then
    match fuel with
    | O => Running st
    | S fuel' =>
        let st' := body text chunk_size overlap st in
        if start st' >=? Py.len text then Returned (chunks st')
        else loop fuel' text chunk_size overlap st'
    end
  else Returned (chunks st).

Definition _chunk_text (fuel : nat) (text : list A)
    (chunk_size overlap : Z) : run :=
  loop fuel text chunk_size overlap {| start := 0; chunks := [] |}.

(** Re-assembly as the design document words it: every chunk but the
    first loses its first [overlap] characters, then all are
    concatenated in order. *)
Definition reassemble (overlap : Z) (cs : list (list A)) : list A :=
  match cs with
  | [] => []
  | c :: rest => c ++ concat (map (drop (Z.to_nat overlap)) rest)
  end.

End Loop.

Arguments loop_state : clear implicits.
Arguments run : clear implicits.

(** The chunk of ordinal [i] as the design document describes it: it
    starts [i] strides of [size - overlap] into the text and spans
    [[start, min(start + size, len(text)))]. *)
Definition window {A} (text : list A) (size overlap : Z) (i : nat) : list A :=
  let start := Z.of_nat i * (size - overlap) in
  Py.slice text start (Z.min (start + size) (Py.len text)).

(** The run seen by a caller: a list, or a call that is still pending. *)
Definition outcome_of_run {A} (r : run A) : Py.outcome (list (list A)) :=
  match r with
  | Returned cs => Py.Ok cs
  | Running _ => Py.Pending
  end.

(** The defaults of the signature: [chunk_size=1000, overlap=200]. *)
Definition default_chunk_size : Z := 1000.
Definition default_overlap : Z := 200.

(** The chunk count of the design document,
    [ceil(max(L - overlap, 0) / (size - overlap))] for [L > 0], else 0. *)
Definition ceil_div (a b : Z) : Z := - ((- a) / b).
Definition spec_chunk_count (L size overlap : Z) : Z :=
  if L >? 0 then ceil_div (Z.max (L - overlap) 0) (size - overlap) else 0.

End Chunker.


(** ** The dataclasses of [config_manager.py] *)

Module Config.

Record LLMConfig := {
  provider : option string;
  api_key : option string;
  model : option string
}.

Record DatabaseConfig := {
  host : option string;
  port : option Z;
  user : option string;
  password : option string
}.

Record DownloadConfig := { directory : option string }.

Record OpenAlexConfig := { email : option string }.

Record Config := {
  openalex : OpenAlexConfig;
  llm : LLMConfig;
  database : DatabaseConfig;
  download : DownloadConfig
}.

(** Truth value of an [Optional[str]] field: [None] and the empty
    string are false. *)
Definition truthy (o : option string) : bool :=
  match o with
  | Some s => negb (String.eqb s EmptyString)
  | None => false
  end.

(** [Config()] with every field at its default. *)
Definition default : Config :=
  {| openalex := {| email := None |};
     llm := {| provider := None; api_key := None; model := None |};
     database := {| host := None; port := None; user := None;
                    password := None |};
     download := {| directory := None |} |}.

End Config.

(** ** [core/downloader.py] *)

Module PaperDownloader.
Import Py.

(** *** The file name of [download_pdf] (the statements before the
    download) *)

(** [for c in v]: the items a value yields when iterated. *)
Definition iter (v : value) : outcome (list value) :=
  match v with
  | VStr s => Ok (map (fun c => VStr (String c EmptyString)) (chars s))
  | VList l => Ok l
  | VDict d => Ok (map (fun kv => VStr (fst kv)) d)
  | _ => Raise TypeError
  end.

(** The generator [c for c in title if c.isalnum() or c in (" ", "-", "_")]
    consumed by [join]: the kept items in order; an item without
    [isalnum] stops it with an [AttributeError]. *)
Fixpoint kept_items (items : list value) : outcome (list string) :=
  match items with
  | [] => Ok []
  | VStr c :: rest =>
      bind (kept_items rest) (fun ks =>
        Ok (if isalnum c || bool_decide (c ∈ [" "; "-"; "_"])
            then c :: ks else ks))
  | _ :: _ => Raise AttributeError
  end.

(** [safe_title], after its two assignments. *)
Definition safe_title (title : value) : outcome string :=
  bind (iter title) (fun items =>
  bind (kept_items items) (fun ks =>
    let cut := of_chars (slice (chars (join EmptyString ks)) 0 50) in
    Ok (replace " " "_" (strip cut)))).

(** [authors[0]]. *)
Definition first_item (v : value) : outcome value :=
  match v with
  | VList (x :: _) => Ok x
  | VList [] => Raise IndexError
  | VStr (String c _) => Ok (VStr (String c EmptyString))
  | VStr EmptyString => Raise IndexError
  | VDict _ => Raise KeyError
  | _ => Raise TypeError
  end.

(** [" " in v]. *)
Definition has_space (v : value) : outcome bool :=
  match v with
  | VStr s => Ok (contains " " s)
  | VList l =>
      Ok (existsb (fun x => match x with
                            | VStr s => String.eqb s " "
                            | _ => false
                            end) l)
  | VDict d => Ok (existsb (fun kv => String.eqb (fst kv) " ") d)
  | _ => Raise TypeError
  end.

(** [v.split()[-1]]. *)
Definition split_last (v : value) : outcome value :=
  match v with
  | VStr s =>
      match last (split s) with
      | Some w => Ok (VStr w)
      | None => Raise IndexError
      end
  | _ => Raise AttributeError
  end.

(** [author_lastname], from the branch on [authors]. *)
Definition author_lastname (authors : value) : outcome value :=
  if truthy authors then
    bind (first_item authors) (fun a0 =>
    bind (get a0 "author" (VDict [])) (fun author =>
    bind (get author "display_name" (VStr "unknown")) (fun first_author =>
    bind (has_space first_author) (fun sp =>
      if sp then split_last first_author else Ok first_author))))
  else Ok (VStr "unknown").

(** [filename], the f-string [{author_lastname}_{year}_{safe_title}.pdf]. *)
Definition filename (paper : dict) : outcome string :=
  let title := dict_get paper "title" (VStr "unknown") in
  bind (safe_title title) (fun st =>
    let year := dict_get paper "publication_year" (VStr "unknown") in
    let authors := dict_get paper "authorships" (VList []) in
    bind (author_lastname authors) (fun ln =>
      Ok (str_ ln +:+ "_" +:+ str_ year +:+ "_" +:+ st +:+ ".pdf"))).

(** *** Paths, as [pathlib] joins and prints them *)

(** [s.split("/")]; [cur] is the piece being read, reversed. *)
Fixpoint split_slash (cur : list ascii) (l : list ascii) : list string :=
  match l with
  | [] => [of_chars (rev cur)]
  | c :: l' =>
      if Ascii.eqb c "/" then of_chars (rev cur) :: split_slash [] l'
      else split_slash (c :: cur) l'
  end.

(** [posixpath.join(a, b)]: an absolute [b] replaces [a]; otherwise one
    separator stands between them. *)
Definition posix_join (a b : string) : string :=
  match chars b with
  | "/"%char :: _ => b
  | _ =>
      match last (chars a) with
      | None => b
      | Some "/"%char => a +:+ b
      | Some _ => a +:+ "/" +:+ b
      end
  end.

(** The root of a path: ["/"], or ["//"] for exactly two leading
    slashes. *)
Definition path_root (s : string) : string :=
  match chars s with
  | "/"%char :: "/"%char :: "/"%char :: _ => "/"
  | "/"%char :: "/"%char :: _ => "//"
  | "/"%char :: _ => "/"
  | _ => EmptyString
  end.

(** The parts of a path: its pieces between slashes, without the empty
    ones and the ["."] ones. *)
Definition path_parts (s : string) : list string :=
  filter (fun part => negb (String.eqb part EmptyString)
                      && negb (String.eqb part "."))
         (split_slash [] (chars s)).

(** [str(Path(s))]. *)
Definition path_str (s : string) : string :=
  match path_root s, path_parts s with
  | EmptyString, [] => "."
  | root, parts => root +:+ join "/" parts
  end.

(** [str(download_dir / filename)], for a directory given by its
    [str]: the segments are joined, then parsed and printed, so that
    empty and ["."] components disappear. *)
Definition path_join (dir name : string) : string :=
  path_str (posix_join dir name).

(** *** The world the downloader acts on *)

(** Files on disk, lines printed on the console, and the calls made to
    [progress.update] as (task id, advance, total). *)
Record world := World {
  files : gmap string (list Byte.byte);
  console_out : list string;
  progress_updates : list (Z * Z * Z)
}.

(** A computation with effects on the world. *)
Definition M (A : Type) : Type := world -> outcome A * world.

Definition ret {A} (a : A) : M A := fun w => (Ok a, w).
Definition raise {A} (e : exn) : M A := fun w => (Raise e, w).
Definition lift {A} (x : outcome A) : M A := fun w => (x, w).
Definition mbind_ {A B} (m : M A) (k : A -> M B) : M B :=
  fun w =>
    match m w with
    | (Ok a, w') => k a w'
    | (Raise e, w') => (Raise e, w')
    | (Pending, w') => (Pending, w')
    end.
(** [try: m except <caught>: handler]. *)
Definition try_except {A} (m : M A) (caught : exn -> bool)
    (handler : exn -> M A) : M A :=
  fun w =>
    match m w with
    | (Raise e, w') => if caught e then handler e w' else (Raise e, w')
    | r => r
    end.

Notation "'do' x <- m ; k" := (mbind_ m (fun x => k))
  (at level 10, x name, m at level 100, k at level 200).
Notation "m ;; k" := (mbind_ m (fun _ => k))
  (at level 100, k at level 200, right associativity).

(** The names bound in the namespace of [downloader.py] once the module
    is loaded: its imports and its class. *)
Definition module_globals : list string :=
  ["Path"; "Optional"; "httpx"; "Progress"; "Config"; "PaperDownloader"].

(** [console.print(msg)] inside the module whose global names are [g]:
    the name [console] is looked up first. *)
Definition console_print (g : list string) (msg : string) : M unit :=
  fun w =>
    if bool_decide ("console" ∈ g) then
      (Ok tt, World (files w) (console_out w ++ [msg]) (progress_updates w))
    else (Raise (NameError "console"), w).

(** *** [download_pdf] *)

(** The response [httpx.stream] yields. *)
Record response := Response {
  raise_for_status : option exn;   (* [None] for a 2xx final status *)
  content_length : outcome Z;      (* [int(headers.get("content-length", 0))] *)
  iter_bytes : list (list Byte.byte);   (* the buffers the stream delivers *)
  stream_error : option exn        (* what interrupts the stream after them *)
}.

(** A [rich] progress display, by the ids of its tasks. *)
Record Progress := { tasks : list Z }.

(** [self]: the configuration and the download directory. *)
Record self_ := Self {
  config : Config.Config;
  download_dir : string
}.

(** [open(file_path, "wb")], given what the operating system answers
    ([os_open] is the error it raises for a path, if any: a missing
    directory, no permission, a directory in the way): the file is
    created or truncated, or the error is raised and nothing changes. *)
Definition open_wb (os_open : string -> option exn) (file_path : string)
    : M unit :=
  fun w =>
    match os_open file_path with
    | Some e => (Raise e, w)
    | None =>
        (Ok tt, World (<[file_path := []]> (files w)) (console_out w)
                      (progress_updates w))
    end.

(** [f.write(chunk)]. *)
Definition write (file_path : string) (chunk : list Byte.byte) : M unit :=
  fun w =>
    let old := default [] (files w !! file_path) in
    (Ok tt, World (<[file_path := old ++ chunk]> (files w)) (console_out w)
                  (progress_updates w)).

(** [progress.update(progress.tasks[0].id, advance=.., total=..)]. *)
Definition progress_update (p : Progress) (advance total : Z) : M unit :=
  fun w =>
    match tasks p with
    | [] => (Raise IndexError, w)
    | id :: _ =>
        (Ok tt, World (files w) (console_out w)
                      (progress_updates w ++ [(id, advance, total)]))
    end.

(** The body of [for chunk in response.iter_bytes(...)], once per
    delivered buffer (the counter [downloaded] is never read). *)
Fixpoint write_chunks (file_path : string) (progress : option Progress)
    (total_size : Z) (bufs : list (list Byte.byte)) : M unit :=
  match bufs with
  | [] => ret tt
  | chunk :: rest =>
      write file_path chunk ;;
      match progress with
      | Some p =>
          if total_size >? 0 then progress_update p (len chunk) total_size
          else ret tt
      | None => ret tt
      end ;;
      write_chunks file_path progress total_size rest
  end.

(** [download_pdf(self, paper, url, progress)], given what
    [httpx.stream("GET", url, ...)] does and what opening a file for
    writing does. *)
Definition download_pdf (httpx_stream : string -> outcome response)
    (os_open : string -> option exn)
    (self : self_) (paper : dict) (url : string)
    (progress : option Progress) : M string :=
  do fname <- lift (filename paper);
  let file_path := path_join (download_dir self) fname in
  do resp <- lift (httpx_stream url);
  match raise_for_status resp with Some e => raise e | None => ret tt end ;;
  do total_size <- lift (content_length resp);
  open_wb os_open file_path ;;
  write_chunks file_path progress total_size (iter_bytes resp) ;;
  match stream_error resp with Some e => raise e | None => ret tt end ;;
  ret file_path.

(** *** [_extract_text] *)

(** What the installed libraries do.  [pypdf] is [None] when
    [import pypdf] fails; otherwise it gives, for the bytes of a file,
    either the error of [PdfReader] or its pages, each page being what
    [page.extract_text()] returns or raises.  [sentence_transformers] is
    [None] when the import fails; otherwise it gives what loading the
    model and [model.encode(chunks).tolist()] return or raise. *)
Record libraries (float : Type) := Libraries {
  pypdf : option (list Byte.byte -> outcome (list (outcome string)));
  sentence_transformers :
    option (list (list ascii) -> outcome (list (list float)))
}.
Arguments pypdf {float} _.
Arguments sentence_transformers {float} _.

(** The loop over [reader.pages]: the non-empty page texts so far. *)
Fixpoint page_texts (pages : list (outcome string)) (text_parts : list string)
    : outcome (list string) :=
  match pages with
  | [] => Ok text_parts
  | page :: rest =>
      bind page (fun text =>
        page_texts rest
          (if String.eqb text EmptyString then text_parts
           else text_parts ++ [text]))
  end.

Definition newline : string := String (ascii_of_nat 10) EmptyString.

(** The [try] block of [_extract_text]. *)
Definition extract_text_try {float} (libs : libraries float)
    (file_path : string) : M string :=
  fun w =>
    match pypdf libs with
    | None => (Raise (ImportError "pypdf"), w)
    | Some PdfReader =>
        match files w !! file_path with
        | None => (Raise (LibraryError "FileNotFoundError" file_path), w)
        | Some content =>
            (bind (PdfReader content) (fun pages =>
             bind (page_texts pages []) (fun text_parts =>
               Ok (join (newline +:+ newline) text_parts))), w)
        end
    end.

Definition _extract_text {float} (libs : libraries float)
    (file_path : string) : M string :=
  try_except (extract_text_try libs file_path) is_Exception
    (fun e => raise (Exception_ "PDF 文本提取失败" e)).

(** *** [_generate_embeddings] and its two strategies *)

Section Embeddings.
Context {float : Type}.
Variable g : list string.
Variable libs : libraries float.

Definition _generate_remote_embeddings (chunks : list (list ascii))
    : M (list (list float)) :=
  console_print g "[yellow]使用远程嵌入 API[/yellow]" ;;
  ret [].

Definition _generate_local_embeddings (chunks : list (list ascii))
    : M (list (list float)) :=
  try_except
    (do encode <- lift (match sentence_transformers libs with
                        | Some f => Ok f
                        | None => Raise (ImportError "sentence_transformers")
                        end);
     console_print g "[cyan]使用本地嵌入模型...[/cyan]" ;;
     lift (encode chunks))
    is_ImportError
    (fun _ =>
       console_print g "[yellow]sentence-transformers 未安装，跳过嵌入生成[/yellow]" ;;
       ret []).

Definition _generate_embeddings (self : self_)
    (chunks : list (list ascii)) : M (list (list float)) :=
  let llm := Config.llm (config self) in
  if Config.truthy (Config.api_key llm)
     && negb (bool_decide (Config.provider llm = Some "ollama"))
  then _generate_remote_embeddings chunks
  else _generate_local_embeddings chunks.

(** *** [_store_in_db] and [index_paper] *)

Definition _store_in_db (paper : dict) (chunks : list (list ascii))
    (embeddings : list (list float)) : M string :=
  console_print g "[cyan]存储到数据库...[/cyan]" ;;
  ret EmptyString.

(** [self._chunk_text(text)], with the default size and overlap. *)
Definition chunk_text_call (fuel : nat) (text : string)
    : M (list (list ascii)) :=
  lift (Chunker.outcome_of_run
          (Chunker._chunk_text fuel (chars text)
             Chunker.default_chunk_size Chunker.default_overlap)).

Definition index_paper (fuel : nat) (self : self_) (paper : dict)
    (file_path : string) : M string :=
  if negb (Config.truthy (Config.host (Config.database (config self)))) then
    console_print g "[yellow]未配置数据库，跳过索引建立[/yellow]" ;;
    ret EmptyString
  else
    do text <- _extract_text libs file_path;
    do chunks <- chunk_text_call fuel text;
    do embeddings <- _generate_embeddings self chunks;
    do paper_id <- _store_in_db paper chunks embeddings;
    ret paper_id.

End Embeddings.

End PaperDownloader.

(** ** [db/surrealdb.py] *)

Module SurrealDBClient.
Import Py.

(** The server behind a connected client: what [client.query(q)]
    returns or raises, given the queries it has received before. *)
Record server := Server { reply : list string -> string -> outcome value }.

(** The attributes [__init__] sets. *)
Record self_ := Self {
  config : Config.Config;
  host : option string;
  port : option Z;
  user : option string;
  password : option string;
  client : option server
}.

Definition __init__ (cfg : Config.Config) : self_ :=
  {| config := cfg;
     host := Config.host (Config.database cfg);
     port := Config.port (Config.database cfg);
     user := Config.user (Config.database cfg);
     password := Config.password (Config.database cfg);
     client := None |}.

(** [connect], given what [import surrealdb] and [surrealdb.Server] do
    ([None] when the import fails): the result and the object after
    the call. *)
Definition connect
    (surrealdb : option (string -> option string -> option string -> outcome server))
    (self : self_) : outcome bool * self_ :=
  match host self with
  | Some h =>
      if String.eqb h EmptyString then (Ok false, self)
      else
        match surrealdb with
        | None => (Ok false, self)
        | Some mk =>
            let url := "ws://" +:+ h +:+ ":"
                       +:+ match port self with
                           | Some p => str_int p
                           | None => "None"
                           end in
            match mk url (user self) (password self) with
            | Ok srv =>
                (Ok true,
                 {| config := config self; host := host self;
                    port := port self; user := user self;
                    password := password self; client := Some srv |})
            | Raise e =>
                if is_Exception e then (Ok false, self) else (Raise e, self)
            | Pending => (Pending, self)
            end
        end
  | None => (Ok false, self)
  end.

(** The store is the list of queries the server has received; a method
    returns its result and the store after it. *)
Definition M (A : Type) : Type := list string -> outcome A * list string.

(** [self.client.query(q)] on a connected client. *)
Definition query (srv : server) (q : string) : M value :=
  fun sent => (reply srv sent q, sent ++ [q]).

(** [except Exception as e: raise Exception(f"<ctx>: {e}")]. *)
Definition wrap {A} (ctx : string) (r : outcome A * list string)
    : outcome A * list string :=
  match r with
  | (Raise e, sent) =>
      if is_Exception e then (Raise (Exception_ ctx e), sent) else r
  | _ => r
  end.

(** [v.replace(chr(39), chr(39) + chr(39))] on a field of the paper. *)
Definition escaped (v : value) : outcome string :=
  match v with
  | VStr s => Ok (replace quote1 (String quote1 (String quote1 EmptyString)) s)
  | _ => Raise AttributeError
  end.

Definition q1 : string := String quote1 EmptyString.

(** The f-string of [add_paper]. *)
Definition add_paper_query (paper : dict) : outcome string :=
  bind (escaped (dict_get paper "title" (VStr EmptyString))) (fun title =>
  bind (escaped (dict_get paper "abstract" (VStr EmptyString))) (fun abstract =>
    Ok ("CREATE papers SET "
        +:+ "id = " +:+ q1 +:+ str_ (dict_get paper "id" (VStr EmptyString)) +:+ q1 +:+ ", "
        +:+ "title = " +:+ q1 +:+ title +:+ q1 +:+ ", "
        +:+ "authors = " +:+ str_ (dict_get paper "authorships" (VList [])) +:+ ", "
        +:+ "year = " +:+ str_ (dict_get paper "publication_year" (VInt 0)) +:+ ", "
        +:+ "abstract = " +:+ q1 +:+ abstract +:+ q1 +:+ ", "
        +:+ "local_path = " +:+ q1 +:+ str_ (dict_get paper "local_path" (VStr EmptyString)) +:+ q1 +:+ ", "
        +:+ "doi = " +:+ q1 +:+ str_ (dict_get paper "doi" (VStr EmptyString)) +:+ q1 +:+ ", "
        +:+ "created_at = time::now()"))).

Definition add_paper (self : self_) (paper : dict) : M string :=
  fun sent =>
    match client self with
    | None => (Ok EmptyString, sent)
    | Some srv =>
        wrap "添加论文失败"
          match add_paper_query paper with
          | Ok q =>
              match query srv q sent with
              | (Ok result, sent') => (Ok (str_ result), sent')
              | (Raise e, sent') => (Raise e, sent')
              | (Pending, sent') => (Pending, sent')
              end
          | Raise e => (Raise e, sent)
          | Pending => (Pending, sent)
          end
    end.

Section Chunks.
(** The components of an embedding, with their [repr]. *)
Context {float : Type}.
Variable repr_float : float -> string.

Definition add_chunk_query (paper_id content : string)
    (embedding : list float) : string :=
  "CREATE chunks SET "
  +:+ "paper_id = " +:+ q1 +:+ paper_id +:+ q1 +:+ ", "
  +:+ "content = " +:+ q1
  +:+ replace quote1 (String quote1 (String quote1 EmptyString)) content
  +:+ q1 +:+ ", "
  +:+ "embedding = " +:+ "[" +:+ join ", " (map repr_float embedding) +:+ "]".

Definition add_chunk (self : self_) (paper_id content : string)
    (embedding : list float) : M string :=
  fun sent =>
    match client self with
    | None => (Ok EmptyString, sent)
    | Some srv =>
        wrap "添加文本块失败"
          match query srv (add_chunk_query paper_id content embedding) sent with
          | (Ok result, sent') => (Ok (str_ result), sent')
          | (Raise e, sent') => (Raise e, sent')
          | (Pending, sent') => (Pending, sent')
          end
    end.
End Chunks.

Definition delete_paper (self : self_) (paper_id : string) : M bool :=
  fun sent =>
    match client self with
    | None => (Ok false, sent)
    | Some srv =>
        wrap "删除论文失败"
          match query srv ("DELETE FROM papers WHERE id = " +:+ q1 +:+ paper_id +:+ q1) sent with
          | (Ok _, sent') =>
              match query srv ("DELETE FROM chunks WHERE paper_id = " +:+ q1 +:+ paper_id +:+ q1) sent' with
              | (Ok _, sent'') => (Ok true, sent'')
              | (Raise e, sent'') => (Raise e, sent'')
              | (Pending, sent'') => (Pending, sent'')
              end
          | (Raise e, sent') => (Raise e, sent')
          | (Pending, sent') => (Pending, sent')
          end
    end.

(** [for q in qs: self.client.query(q)], stopping at the first query
    that raises. *)
Fixpoint queries (srv : server) (qs : list string) : M unit :=
  fun sent =>
    match qs with
    | [] => (Ok tt, sent)
    | q :: rest =>
        match query srv q sent with
        | (Ok _, sent') => queries srv rest sent'
        | (Raise e, sent') => (Raise e, sent')
        | (Pending, sent') => (Pending, sent')
        end
    end.

Definition create_tables (self : self_) : M unit :=
  fun sent =>
    match client self with
    | None => (Ok tt, sent)
    | Some srv =>
        wrap "创建表失败"
          (queries srv
             ["CREATE TABLE IF NOT EXISTS papers";
              "CREATE TABLE IF NOT EXISTS chunks";
              "DEFINE INDEX paper_id ON papers FIELDS id";
              "DEFINE INDEX chunk_embedding ON chunks FIELDS embedding"]
             sent)
    end.

(** [result or []]. *)
Definition or_empty_list (result : value) : value :=
  if truthy result then result else VList [].

Definition search_papers (self : self_) (query_ : string) (limit : Z)
    : M value :=
  fun sent =>
    match client self with
    | None => (Ok (VList []), sent)
    | Some srv =>
        wrap "搜索论文失败"
          match query srv ("SELECT * FROM papers WHERE title CONTAINS "
                           +:+ q1 +:+ query_ +:+ q1
                           +:+ " LIMIT " +:+ str_int limit) sent with
          | (Ok result, sent') => (Ok (or_empty_list result), sent')
          | r => r
          end
    end.

Section Vectors.
Context {float : Type}.
Variable repr_float : float -> string.

Definition semantic_search (self : self_) (query_embedding : list float)
    (limit : Z) : M value :=
  fun sent =>
    match client self with
    | None => (Ok (VList []), sent)
    | Some srv =>
        wrap "向量搜索失败"
          match query srv
                  ("SELECT *, vector::similarity::cosine(embedding, "
                   +:+ "[" +:+ join ", " (map repr_float query_embedding) +:+ "]"
                   +:+ ") as score "
                   +:+ "FROM chunks ORDER BY score DESC LIMIT " +:+ str_int limit)
                  sent with
          | (Ok result, sent') => (Ok (or_empty_list result), sent')
          | r => r
          end
    end.
End Vectors.

(** [result[0] if result else None]. *)
Definition first_or_none (result : value) : outcome value :=
  if truthy result then PaperDownloader.first_item result else Ok VNone.

Definition get_paper (self : self_) (paper_id : string) : M value :=
  fun sent =>
    match client self with
    | None => (Ok VNone, sent)
    | Some srv =>
        wrap "获取论文失败"
          match query srv ("SELECT * FROM papers WHERE id = "
                           +:+ q1 +:+ paper_id +:+ q1) sent with
          | (Ok result, sent') => (first_or_none result, sent')
          | r => r
          end
    end.

(** [self.client.query(q)[0].get("count", 0)]. *)
Definition count_of (srv : server) (q : string) : M value :=
  fun sent =>
    match query srv q sent with
    | (Ok result, sent') =>
        (bind (PaperDownloader.first_item result) (fun row =>
           get row "count" (VInt 0)), sent')
    | r => r
    end.

Definition get_stats (self : self_) : M value :=
  fun sent =>
    match client self with
    | None => (Ok (VDict []), sent)
    | Some srv =>
        wrap "获取统计信息失败"
          match count_of srv "SELECT count() FROM papers" sent with
          | (Ok paper_count, sent') =>
              match count_of srv "SELECT count() FROM chunks" sent' with
              | (Ok chunk_count, sent'') =>
                  (Ok (VDict [("paper_count", paper_count);
                              ("chunk_count", chunk_count)]), sent'')
              | r => r
              end
          | r => r
          end
    end.

End SurrealDBClient.

(** ** [core/searcher.py]: the PDF address of a paper *)

Module Searcher.
Import Py.

(** [c.lower()] on the code points below 256: the ASCII capitals and the
    Latin-1 capitals have a lower-case partner 32 places on. *)
Definition lower_char (c : ascii) : ascii :=
  let n := code c in
  if between 65 90 n || between 192 214 n || between 216 222 n
  then ascii_of_N (n + 32) else c.

Definition lower (s : string) : string := of_chars (map lower_char (chars s)).

(** [v.lower()] on a value: only a string has the method. *)
Definition lower_value (v : value) : outcome string :=
  match v with
  | VStr s => Ok (lower s)
  | _ => Raise AttributeError
  end.

(** [needle in s] for two strings. *)
Fixpoint starts_with (needle l : list ascii) : bool :=
  match needle, l with
  | [], _ => true
  | _ :: _, [] => false
  | a :: needle', b :: l' => Ascii.eqb a b && starts_with needle' l'
  end.
Fixpoint occurs_in (needle l : list ascii) : bool :=
  starts_with needle l
  || match l with
     | [] => false
     | _ :: l' => occurs_in needle l'
     end.
Definition substring (needle s : string) : bool :=
  occurs_in (chars needle) (chars s).

(** [v == "arXiv"]. *)
Definition is_arXiv (v : value) : bool :=
  match v with
  | VStr s => String.eqb s "arXiv"
  | _ => false
  end.

(** The first loop over the locations: the landing page of the first
    location hosted by arXiv.  [None] when the loop ends without a
    [return]. *)
Fixpoint arxiv_location (locations : list value) : outcome (option value) :=
  match locations with
  | [] => Ok None
  | location :: rest =>
      bind (get location "source" (VDict [])) (fun source =>
      bind (get source "host_organization" VNone) (fun org =>
        if is_arXiv org
        then bind (get location "landing_page_url" VNone) (fun u => Ok (Some u))
        else arxiv_location rest))
  end.

(** The second loop: the first location whose source is named after
    PubMed. *)
Fixpoint pubmed_location (locations : list value) : outcome (option value) :=
  match locations with
  | [] => Ok None
  | location :: rest =>
      bind (get location "source" (VDict [])) (fun source =>
      bind (get source "display_name" (VStr EmptyString)) (fun name =>
      bind (lower_value name) (fun low =>
        if substring "pubmed" low
        then bind (get location "landing_page_url" VNone) (fun u => Ok (Some u))
        else pubmed_location rest)))
  end.

(** The third loop: the first open-access location. *)
Fixpoint oa_location (locations : list value) : outcome (option value) :=
  match locations with
  | [] => Ok None
  | location :: rest =>
      bind (get location "is_oa" VNone) (fun is_oa =>
        if truthy is_oa
        then bind (get location "landing_page_url" VNone) (fun u => Ok (Some u))
        else oa_location rest)
  end.

(** The three loops in turn, each ending the function when it returns. *)
Definition from_locations (locations : list value) : outcome value :=
  bind (arxiv_location locations) (fun r1 =>
    match r1 with
    | Some u => Ok u
    | None =>
        bind (pubmed_location locations) (fun r2 =>
          match r2 with
          | Some u => Ok u
          | None =>
              bind (oa_location locations) (fun r3 =>
                match r3 with
                | Some u => Ok u
                | None => Ok VNone
                end)
          end)
    end).

Definition get_pdf_url_async (paper : value) : outcome value :=
  bind (get paper "open_access" (VDict [])) (fun open_access =>
  bind (get open_access "is_oa" (VBool false)) (fun is_oa =>
  bind (if truthy is_oa
        then bind (get open_access "oa_url" VNone) (fun oa_url =>
               Ok (if truthy oa_url then Some oa_url else None))
        else Ok None) (fun early =>
    match early with
    | Some oa_url => Ok oa_url
    | None =>
        bind (get paper "locations" (VList [])) (fun locations =>
        bind (PaperDownloader.iter locations) from_locations)
    end))).

(** [get_pdf_url]: the coroutine run to its end, any [Exception] turned
    into [None]. *)
Definition get_pdf_url (paper : value) : outcome value :=
  match get_pdf_url_async paper with
  | Raise e => if is_Exception e then Ok VNone else Raise e
  | r => r
  end.

End Searcher.

(** ** [download.py]: the commands that call the downloader *)

Module Download.
Import Py PaperDownloader.

(** [console.print(msg)] in [download.py], where [console] is bound. *)
Definition echo (msg : string) : M unit :=
  fun w => (Ok tt, World (files w) (console_out w ++ [msg]) (progress_updates w)).

(** [raise typer.Exit(code)]. *)
Definition Exit (code : Z) : exn := LibraryError "Exit" (str_int code).

(** The [Progress(...)] every command builds: no command adds a task to
    it. *)
Definition new_progress : Progress := {| tasks := [] |}.

(** [PaperDownloader(config)]: the download directory is the configured
    one, or ["~/acm-papers/"] when it is unset or empty, as a path with
    the home directory expanded ([expanduser] is
    [str(Path(d).expanduser())]); the directory it creates is not part of
    the files modelled. *)
Definition new_downloader (expanduser : string -> string)
    (cfg : Config.Config) : self_ :=
  {| config := cfg;
     download_dir :=
       expanduser (if Config.truthy (Config.directory (Config.download cfg))
                   then default EmptyString (Config.directory (Config.download cfg))
                   else "~/acm-papers/") |}.

(** [[line.strip() for line in f if line.strip()]]. *)
Definition paper_ids (lines : list string) : list string :=
  flat_map (fun line =>
              if negb (String.eqb (strip line) EmptyString)
              then [strip line] else [])
           lines.

(** [l[i]] on a list. *)
Definition index_list (l : list value) (i : Z) : outcome value :=
  let j := if i <? 0 then i + len l else i in
  if (0 <=? j) && (j <? len l) then
    match l !! Z.to_nat j with
    | Some v => Ok v
    | None => Raise IndexError
    end
  else Raise IndexError.

(** [[results[i - 1] for i in indices_list if 0 < i <= len(results)]]. *)
Fixpoint papers_to_download (results : list value) (indices_list : list Z)
    : outcome (list value) :=
  match indices_list with
  | [] => Ok []
  | i :: rest =>
      if (0 <? i) && (i <=? len results) then
        bind (index_list results (i - 1)) (fun paper =>
        bind (papers_to_download results rest) (fun papers =>
          Ok (paper :: papers)))
      else papers_to_download results rest
  end.

(** The title shown in the interactive list:
    [if len(title) > 60: title = title[:57] + "..."]. *)
Definition shown_title (title : string) : string :=
  if len (chars title) >? 60
  then of_chars (slice (chars title) 0 57) +:+ "..."
  else title.

(** The paper [download_from_url] makes up: [title or "Unknown"] and the
    year 2024. *)
Definition url_paper (title : option string) : dict :=
  [("title", VStr (if Config.truthy title then default EmptyString title
                   else "Unknown"));
   ("publication_year", VInt 2024)].

Section Batch.
Context {float : Type}.
(** The namespace of [downloader.py], the libraries, the fuel of the
    chunker, the network, the opening of files,
    [Searcher.get_paper_by_id] and [str(e)]. *)
Variable g : list string.
Variable libs : libraries float.
Variable fuel : nat.
Variable httpx_stream : string -> outcome response.
Variable os_open : string -> option exn.
Variable get_paper_by_id : string -> outcome value.
Variable str_exn : exn -> string.

(** [downloader.download_pdf(paper=paper, url=pdf_url, progress=progress)]
    on the values the loop holds: a paper that is no dict has no [get],
    and [httpx] rejects an address that is no string once the file name
    is computed. *)
Definition call_download_pdf (downloader : self_) (paper pdf_url : value)
    : M string :=
  match paper with
  | VDict d =>
      match pdf_url with
      | VStr url =>
          download_pdf httpx_stream os_open downloader d url (Some new_progress)
      | _ => do _ <- lift (filename d); raise TypeError
      end
  | _ => raise AttributeError
  end.

Definition call_index_paper (downloader : self_) (paper : value)
    (file_path : string) : M string :=
  match paper with
  | VDict d => index_paper g libs fuel downloader d file_path
  | _ => raise AttributeError
  end.

(** The [try] block of the loop of [download_batch] for one id: [true]
    when it reaches [success_count += 1], [false] when it leaves through
    [failed_count += 1; continue]. *)
Definition batch_try (index : bool) (downloader : self_) (paper_id : string)
    : M bool :=
  do paper <- lift (get_paper_by_id paper_id);
  if negb (truthy paper) then
    echo ("[red]未找到论文: " +:+ paper_id +:+ "[/red]") ;; ret false
  else
    do pdf_url <- lift (Searcher.get_pdf_url paper);
    if negb (truthy pdf_url) then
      echo ("[yellow]无法找到 PDF 链接: " +:+ paper_id +:+ "[/yellow]") ;; ret false
    else
      do file_path <- call_download_pdf downloader paper pdf_url;
      (if index then do _ <- call_index_paper downloader paper file_path; ret tt
       else ret tt) ;;
      echo ("[green]✓ " +:+ paper_id +:+ "[/green]") ;;
      ret true.

(** The loop of [download_batch] with its two counters. *)
Fixpoint batch_loop (index : bool) (downloader : self_)
    (ids : list string) (success_count failed_count : Z) : M (Z * Z) :=
  match ids with
  | [] => ret (success_count, failed_count)
  | paper_id :: rest =>
      echo (newline +:+ "[dim]下载 " +:+ paper_id +:+ "...[/dim]") ;;
      do ok <- try_except (batch_try index downloader paper_id) is_Exception
                 (fun e =>
                    echo ("[red]✗ " +:+ paper_id +:+ ": " +:+ str_exn e +:+ "[/red]") ;;
                    ret false);
      if ok then batch_loop index downloader rest (success_count + 1) failed_count
      else batch_loop index downloader rest success_count (failed_count + 1)
  end.

(** [download_batch(file_path, index)], given what [config_manager.load()]
    returned, whether the id file exists and the lines read from it. *)
Definition download_batch (expanduser : string -> string)
    (loaded : option Config.Config) (file_path : string) (file_exists : bool)
    (lines : outcome (list string)) (index : bool) : M unit :=
  match loaded with
  | None =>
      echo "[bold red]请先运行 'acm config init' 进行配置[/bold red]" ;;
      raise (Exit 1)
  | Some cfg =>
      if negb file_exists then
        echo ("[bold red]文件不存在: " +:+ file_path +:+ "[/bold red]") ;;
        raise (Exit 1)
      else
        do ls <- lift lines;
        let ids := paper_ids ls in
        match ids with
        | [] =>
            echo "[bold red]文件中没有论文 ID[/bold red]" ;; raise (Exit 1)
        | _ =>
            echo ("[cyan]准备下载 " +:+ str_int (len ids) +:+ " 篇论文...[/cyan]") ;;
            do counts <- batch_loop index (new_downloader expanduser cfg) ids 0 0;
            echo (newline +:+ "[bold]下载完成[/bold]") ;;
            echo ("  成功: [green]" +:+ str_int (fst counts) +:+ "[/green]") ;;
            echo ("  失败: [red]" +:+ str_int (snd counts) +:+ "[/red]") ;;
            ret tt
        end
  end.

End Batch.

End Download.

(** ** Notions of the design document *)

Module Design.
Import Py.

(** A character the title keeps: alphanumeric, space, dash or
    underscore. *)
Definition keeps (c : ascii) : bool :=
  isalnum_char c || Ascii.eqb c " " || Ascii.eqb c "-" || Ascii.eqb c "_".

(** The sanitized title: kept characters only, cut to 50 characters,
    stripped, spaces turned into underscores. *)
Definition sanitized_title (t : string) : string :=
  replace " " "_" (strip (of_chars (take 50 (filter keeps (chars t))))).

(** The surname taken from a display name: its last word when it has a
    space, the whole name otherwise. *)
Definition surname (name : string) : option string :=
  if contains " " name then last (split name) else Some name.

(** The text a document's pages give: the non-empty page texts joined by
    a blank line. *)
Definition joined_pages (texts : list string) : string :=
  join (PaperDownloader.newline +:+ PaperDownloader.newline)
       (filter (fun t => negb (String.eqb t EmptyString)) texts).

(** The first progress update fails: the stream delivers a buffer, the
    content length is positive, and the progress display has no task
    for [progress.tasks[0]]. *)
Definition stalls (progress : option PaperDownloader.Progress) (total : Z)
    (bufs : list (list Byte.byte)) : bool :=
  match progress, bufs with
  | Some p, _ :: _ =>
      (total >? 0) && match PaperDownloader.tasks p with
                      | [] => true
                      | _ :: _ => false
                      end
  | _, _ => false
  end.


End Design.

(** ** Concrete inputs *)

Module Examples.
Import Py.

Definition text2500 : list ascii := repeat "x"%char 2500.

Definition author (name : string) : value :=
  VDict [("author", VDict [("display_name", VStr name)])].

(** A paper with two authors. *)
Definition notes : dict :=
  [("title", VStr "Notes"); ("publication_year", VInt 1843);
   ("authorships", VList [author "Ada Lovelace"; author "Charles Babbage"])].

(** A downloader with the default configuration: no database, no LLM. *)
Definition downloader : PaperDownloader.self_ :=
  PaperDownloader.Self Config.default "/papers".

(** No optional library is installed. *)
Definition no_libraries : PaperDownloader.libraries unit :=
  PaperDownloader.Libraries unit None None.

(** The namespace the module would have if it bound [console] as its
    sibling modules do. *)
Definition globals_with_console : list string :=
  "console" :: PaperDownloader.module_globals.

Definition dest : string := "/papers/Lovelace_1843_Notes.pdf".

(** A disk that already holds a one-byte file at the destination. *)
Definition disk : PaperDownloader.world :=
  PaperDownloader.World {[ dest := [Byte.x01] ]} [] [].


(** A PDF of three pages whose second page cannot be extracted. *)
Definition pypdf_bad_page : PaperDownloader.libraries unit :=
  PaperDownloader.Libraries unit
    (Some (fun _ => Ok [Ok "a"; Raise (LibraryError "PdfReadError" "page 2");
                        Ok "b"]))
    None.

(** A connected client whose server answers every query with the empty
    string. *)
Definition connected : SurrealDBClient.self_ :=
  SurrealDBClient.Self Config.default (Some "localhost") (Some 8000) None None
    (Some (SurrealDBClient.Server (fun _ _ => Ok (VStr EmptyString)))).

End Examples.

(** ** What a computation of the downloader may do *)

Module Effects.
Import Py PaperDownloader.

(** The computation leaves every file as it is, whatever its outcome. *)
Definition preserves_files {A} (m : M A) : Prop :=
  forall w, files (snd (m w)) = files w.

(** The computation never returns a value: it raises or is pending. *)
Definition never_returns {A} (m : M A) : Prop :=
  forall w a w', m w <> (Ok a, w').

(** The sum of the advances of a list of progress updates. *)
Definition advanced (updates : list (Z * Z * Z)) : Z :=
  fold_right (fun u acc => snd (fst u) + acc) 0 updates.

(** An outcome that [except Exception] turns into a value: a value, or
    an exception of class [Exception]. *)
Definition catchable {A} (r : outcome A) : Prop :=
  match r with
  | Ok _ => True
  | Raise e => is_Exception e = true
  | Pending => False
  end.



End Effects.

(** ** More concrete inputs *)

Module Cases.
Import Py.

Definition hello : list ascii := chars "hello world".

(** A connected client whose server accepts the deletion of a paper and
    fails on the deletion of its chunks. *)
Definition chunk_delete_fails : SurrealDBClient.self_ :=
  SurrealDBClient.Self Config.default (Some "localhost") (Some 8000) None None
    (Some (SurrealDBClient.Server
             (fun sent _ =>
                match sent with
                | [] => Ok (VList [])
                | _ => Raise (LibraryError "SurrealException" "timeout")
                end))).

(** A connected client whose server answers every query with no rows. *)
Definition no_rows : SurrealDBClient.self_ :=
  SurrealDBClient.Self Config.default (Some "localhost") (Some 8000) None None
    (Some (SurrealDBClient.Server (fun _ _ => Ok (VList [])))).

(** A paper whose title is null. *)
Definition untitled : dict := [("id", VStr "W1"); ("title", VNone)].

Definition location (source : value) (is_oa : bool) (url : string) : value :=
  VDict [("source", source); ("is_oa", VBool is_oa);
         ("landing_page_url", VStr url)].

Definition arxiv_source : value :=
  VDict [("display_name", VStr "arXiv (Cornell University)");
         ("host_organization", VStr "arXiv")].

Definition journal_source : value :=
  VDict [("display_name", VStr "Journal of Engines");
         ("host_organization", VStr "https://openalex.org/P1")].

(** A configuration with a database host. *)
Definition with_database : Config.Config :=
  {| Config.openalex := {| Config.email := None |};
     Config.llm := {| Config.provider := None; Config.api_key := None;
                      Config.model := None |};
     Config.database := {| Config.host := Some "localhost";
                           Config.port := Some 8000; Config.user := None;
                           Config.password := None |};
     Config.download := {| Config.directory := None |} |}.

Definition indexer : PaperDownloader.self_ :=
  PaperDownloader.Self with_database "/papers".

(** A PDF library that reads one page of text from any file. *)
Definition one_page : PaperDownloader.libraries unit :=
  PaperDownloader.Libraries unit (Some (fun _ => Ok [Ok "some text"])) None.

(** A paper that is not open access itself, with a journal location
    marked open access and then an arXiv location. *)
Definition two_locations : value :=
  VDict [("open_access", VDict [("is_oa", VBool false)]);
         ("locations",
          VList [location journal_source true "http://journal.example/1";
                 location arxiv_source true "http://arxiv.example/1"])].

(** The same paper when the first location has a null source. *)
Definition null_source : value :=
  VDict [("open_access", VDict [("is_oa", VBool false)]);
         ("locations",
          VList [location VNone true "http://journal.example/1";
                 location arxiv_source true "http://arxiv.example/1"])].

(** A stream that delivers two buffers and ends. *)
Definition good_response : PaperDownloader.response :=
  PaperDownloader.Response None (Ok 3) [[Byte.x25; Byte.x50]; [Byte.x44]] None.

(** The same stream without a content length. *)
Definition unsized_response : PaperDownloader.response :=
  PaperDownloader.Response None (Ok 0) [[Byte.x25; Byte.x50]; [Byte.x44]] None.

(** An open-access paper by one author, and the metadata service that
    knows only it. *)
Definition engines : value :=
  VDict [("title", VStr "Engines"); ("publication_year", VInt 1843);
         ("authorships", VList [Examples.author "Ada Lovelace"]);
         ("open_access", VDict [("is_oa", VBool true);
                                ("oa_url", VStr "http://example.org/e.pdf")])].

Definition catalog (paper_id : string) : outcome value :=
  if String.eqb paper_id "W1" then Ok engines else Ok VNone.

(** A paper whose only author has a name with a slash and no space, and
    a disk on which the directory that name calls for does not exist. *)
Definition slash_author : dict :=
  [("title", VStr "Back in Black"); ("publication_year", VInt 1980);
   ("authorships", VList [Examples.author "AC/DC"])].

Definition no_such_directory (path : string) : option exn :=
  if String.eqb path "/papers/AC/DC_1980_Back_in_Black.pdf"
  then Some (LibraryError "FileNotFoundError" path)
  else None.

(** A paper whose only author has a name that begins with a dot
    component. *)
Definition dot_author : dict :=
  [("title", VStr "T"); ("publication_year", VInt 1980);
   ("authorships", VList [Examples.author "./x"])].

End Cases.

(** * Properties *)

(** ** The chunker *)

Module ChunkerFacts.
Import Chunker.

Section Facts.
Context {A : Type}.
Implicit Types (text : list A) (st : loop_state A).

(** A slice with bounds in range is a [take] of a [drop]. *)
Lemma slice_in_range text (a b : Z) :
  0 <= a -> a <= b -> b <= Py.len text ->
  Py.slice text a b = take (Z.to_nat (b - a)) (drop (Z.to_nat a) text).
Proof.
  intros Ha Hab Hb. unfold Py.slice, Py.slice_index.
  destruct (Z.ltb_spec a 0); [lia|].
  destruct (Z.ltb_spec b 0); [lia|].
  rewrite !Z.min_l by lia. reflexivity.
Qed.

Lemma slice_to_end text (a : Z) :
  0 <= a -> a <= Py.len text ->
  Py.slice text a (Py.len text) = drop (Z.to_nat a) text.
Proof.
  intros Ha Hb. rewrite slice_in_range by lia.
  apply take_ge. rewrite length_drop. unfold Py.len in *. lia.
Qed.

(** The loop, unfolded once. *)
Lemma loop_S fuel text size overlap st :
  loop (S fuel) text size overlap st
  = if start st <? Py.len text then
      if start (body text size overlap st) >=? Py.len text
      then Returned (chunks (body text size overlap st))
      else loop fuel text size overlap (body text size overlap st)
    else Returned (chunks st).
Proof. reflexivity. Qed.

Lemma loop_exit fuel text size overlap st :
  Py.len text <= start st ->
  loop fuel text size overlap st = Returned (chunks st).
Proof.
  intros H. destruct fuel; cbn [loop];
    destruct (Z.ltb_spec (start st) (Py.len text)); (lia || reflexivity).
Qed.

(** One more iteration when the loop is entered and not left. *)
Lemma loop_continue fuel text size overlap st :
  start st < Py.len text ->
  start (body text size overlap st) < Py.len text ->
  loop (S fuel) text size overlap st
  = loop fuel text size overlap (body text size overlap st).
Proof.
  intros H1 H2. rewrite loop_S.
  destruct (Z.ltb_spec (start st) (Py.len text)); [|lia].
  destruct (Z.geb_spec (start (body text size overlap st)) (Py.len text));
    [lia|reflexivity].
Qed.

(** If some property of the state implies the loop condition and is
    kept by the body, the loop is still running after any number of
    iterations, in the state that many bodies lead to. *)
Lemma loop_spins (P : loop_state A -> Prop) text size overlap :
  (forall st, P st -> start st < Py.len text) ->
  (forall st, P st -> P (body text size overlap st)) ->
  forall fuel st, P st ->
    loop fuel text size overlap st
    = Running (Nat.iter fuel (body text size overlap) st).
Proof.
  intros Hcond Hkeep. induction fuel as [|fuel IH]; intros st HP.
  - cbn [loop Nat.iter nat_rect].
    destruct (Z.ltb_spec (start st) (Py.len text)).
    + reflexivity.
    + specialize (Hcond _ HP). lia.
  - rewrite loop_continue by auto.
    rewrite Nat.iter_succ_r. apply IH. auto.
Qed.

(** Every iteration appends one chunk. *)
Lemma length_chunks_iter text size overlap n st :
  length (chunks (Nat.iter n (body text size overlap) st))
  = (n + length (chunks st))%nat.
Proof.
  induction n as [|n IH]; [reflexivity|].
  cbn [Nat.iter nat_rect]. unfold body at 1. cbn [chunks].
  rewrite length_app. cbn [length]. fold (Nat.iter n (body text size overlap) st).
  rewrite IH. lia.
Qed.

(** With a positive overlap the next start stays below the length of
    the text: the loop on a non-empty text never exits, whatever the
    chunk size. *)
Lemma chunk_text_spins_overlap text size overlap :
  0 < Py.len text -> 0 < overlap ->
  forall fuel, exists st,
    _chunk_text fuel text size overlap = Running st
    /\ length (chunks st) = fuel.
Proof.
  intros HL Hov fuel. eexists. split.
  - apply (loop_spins (fun st => start st < Py.len text)).
    + auto.
    + intros st Hst. cbn [body start]. lia.
    + cbn [start]. lia.
  - rewrite length_chunks_iter. cbn [chunks length]. lia.
Qed.

(** Without validation, an overlap that is at least the chunk size
    keeps the start at or below 0. *)
Lemma chunk_text_spins_no_progress text size overlap :
  0 < Py.len text -> size <= overlap ->
  forall fuel, exists st,
    _chunk_text fuel text size overlap = Running st
    /\ length (chunks st) = fuel.
Proof.
  intros HL Hov fuel. eexists. split.
  - apply (loop_spins (fun st => start st <= 0)).
    + intros st Hst. lia.
    + intros st Hst. cbn [body start]. lia.
    + cbn [start]. lia.
  - rewrite length_chunks_iter. cbn [chunks length]. lia.
Qed.

(** The empty text: the loop is not entered. *)
Lemma chunk_text_empty fuel size overlap :
  _chunk_text fuel (@nil A) size overlap = Returned [].
Proof. unfold _chunk_text. apply loop_exit. unfold Py.len. simpl. lia. Qed.

(** *** Without overlap the loop ends and cuts the text into
    consecutive pieces *)

Lemma ceil_div_small r size : 0 < r -> r <= size -> ceil_div r size = 1.
Proof.
  intros H1 H2. unfold ceil_div.
  assert ((- r) / size = -1); [|lia].
  symmetry. apply (Z.div_unique_pos (- r) size (-1) (size - r)); lia.
Qed.

Lemma ceil_div_step r size :
  0 < size -> ceil_div r size = 1 + ceil_div (r - size) size.
Proof.
  intros H. unfold ceil_div.
  replace (- (r - size)) with (- r + 1 * size) by lia.
  rewrite Z.div_add by lia. lia.
Qed.

Lemma loop_no_overlap text size :
  0 < size ->
  forall fuel st,
    0 <= start st -> start st <= Py.len text ->
    Py.len text - start st <= Z.of_nat fuel ->
    exists cs,
      loop fuel text size 0 st = Returned (chunks st ++ cs)
      /\ concat cs = drop (Z.to_nat (start st)) text
      /\ Py.len cs = ceil_div (Py.len text - start st) size.
Proof.
  intros Hsize. induction fuel as [|fuel IH]; intros st H0 HL Hfuel.
  - exists []. rewrite loop_exit by lia. rewrite app_nil_r.
    split; [reflexivity|]. split.
    + symmetry. apply drop_ge. unfold Py.len in *. lia.
    + replace (Py.len text - start st) with 0 by lia. reflexivity.
  - destruct (Z.eq_dec (start st) (Py.len text)) as [Heq|Hne].
    { exists []. rewrite loop_exit by lia. rewrite app_nil_r.
      split; [reflexivity|]. split.
      + symmetry. apply drop_ge. unfold Py.len in *. lia.
      + replace (Py.len text - start st) with 0 by lia. reflexivity. }
    rewrite loop_S.
    destruct (Z.ltb_spec (start st) (Py.len text)); [|lia].
    unfold body. cbn [start chunks]. rewrite Z.sub_0_r.
    destruct (Z.geb_spec ((start st + size) `min` Py.len text) (Py.len text))
      as [Hge|Hlt].
    + exists [drop (Z.to_nat (start st)) text].
      rewrite Z.min_r by lia. rewrite slice_to_end by lia.
      split; [reflexivity|]. split.
      * cbn. apply app_nil_r.
      * rewrite ceil_div_small by lia. reflexivity.
    + rewrite Z.min_l in * by lia.
      destruct (IH {| start := start st + size;
                      chunks := chunks st ++ [Py.slice text (start st) (start st + size)] |})
        as (cs & Hrun & Hcat & Hlen); cbn [start chunks]; try lia.
      cbn [start chunks] in Hrun, Hcat, Hlen.
      exists (Py.slice text (start st) (start st + size) :: cs).
      split; [rewrite Hrun, <- app_assoc; reflexivity|]. split.
      * cbn [concat]. rewrite Hcat. rewrite slice_in_range by lia.
        replace (Z.to_nat (start st + size))
          with (Z.to_nat (start st) + Z.to_nat (start st + size - start st))%nat
          by lia.
        rewrite <- drop_drop. apply take_drop.
      * rewrite (ceil_div_step (Py.len text - start st)) by lia.
        replace (Py.len text - start st - size)
          with (Py.len text - (start st + size)) by lia.
        rewrite <- Hlen. unfold Py.len. cbn [length]. lia.
Qed.

(** With [overlap = 0] and enough fuel the call returns; its chunks
    concatenate to the text and there are [ceil(L / size)] of them. *)
Lemma chunk_text_no_overlap text size fuel :
  0 < size -> (length text <= fuel)%nat ->
  exists cs,
    _chunk_text fuel text size 0 = Returned cs
    /\ concat cs = text
    /\ Py.len cs = ceil_div (Py.len text) size.
Proof.
  intros Hsize Hfuel.
  destruct (loop_no_overlap text size Hsize fuel {| start := 0; chunks := [] |})
    as (cs & Hrun & Hcat & Hlen); cbn [start chunks];
    try (unfold Py.len; lia).
  cbn [start chunks] in Hrun, Hcat, Hlen.
  exists cs. split; [exact Hrun|]. split; [exact Hcat|].
  rewrite Hlen. f_equal. lia.
Qed.

(** Dropping nothing from each later chunk: re-assembly is plain
    concatenation. *)
Lemma reassemble_0 (cs : list (list A)) : reassemble 0 cs = concat cs.
Proof.
  destruct cs as [|c rest]; [reflexivity|]. cbn [reassemble concat].
  f_equal. f_equal. induction rest as [|r rest IH]; [reflexivity|].
  cbn [map]. rewrite IH. reflexivity.
Qed.

(** With [overlap = 0] the returned chunks re-assemble to the text. *)
Lemma chunk_text_no_overlap_reassembles text size fuel :
  0 < size -> (length text <= fuel)%nat ->
  exists cs,
    _chunk_text fuel text size 0 = Returned cs
    /\ reassemble 0 cs = text.
Proof.
  intros Hsize Hfuel.
  destruct (chunk_text_no_overlap text size fuel Hsize Hfuel)
    as (cs & Hrun & Hcat & _).
  exists cs. rewrite reassemble_0. auto.
Qed.

(** *** The chunks the loop appends, for a valid size and overlap *)

Lemma ceil_div_bounds a b :
  0 < b -> (ceil_div a b - 1) * b < a /\ a <= ceil_div a b * b.
Proof.
  intros Hb. unfold ceil_div.
  pose proof (Z.mul_div_le (- a) b Hb).
  pose proof (Z.mul_succ_div_gt (- a) b Hb). nia.
Qed.

(** As long as the chunk before ended short of the end of the text,
    the [k]-th iteration starts [k] strides in, and the chunks so far
    are the first [k] windows. *)
Lemma iter_windows text size overlap (k : nat) :
  0 <= overlap -> overlap < size ->
  (k = 0%nat \/ (Z.of_nat k - 1) * (size - overlap) + size < Py.len text) ->
  Nat.iter k (body text size overlap) {| start := 0; chunks := [] |}
  = {| start := Z.of_nat k * (size - overlap);
       chunks := map (window text size overlap) (seq 0 k) |}.
Proof.
  intros Hov Hsz. induction k as [|k IH]; intros Hk; [reflexivity|].
  rewrite Nat.iter_succ.
  rewrite IH by (destruct k; [left; reflexivity | right; nia]).
  destruct Hk as [Hk|Hk]; [discriminate|].
  unfold body. cbn [start chunks]. f_equal.
  - rewrite Z.min_l by nia. nia.
  - rewrite seq_S, map_app. reflexivity.
Qed.

(** The iteration whose chunk first ends at the end of the text:
    the chunks are still the windows, and the next start is
    [len(text) - overlap]. *)
Lemma iter_last_window text size overlap (m : nat) :
  0 <= overlap -> overlap < size ->
  (m = 0%nat \/ (Z.of_nat m - 1) * (size - overlap) + size < Py.len text) ->
  Py.len text <= Z.of_nat m * (size - overlap) + size ->
  Nat.iter (S m) (body text size overlap) {| start := 0; chunks := [] |}
  = {| start := Py.len text - overlap;
       chunks := map (window text size overlap) (seq 0 (S m)) |}.
Proof.
  intros Hov Hsz Hm Hend.
  rewrite Nat.iter_succ.
  rewrite iter_windows by assumption.
  unfold body. cbn [start chunks]. f_equal.
  - rewrite Z.min_r by lia. reflexivity.
  - rewrite seq_S, map_app. reflexivity.
Qed.

Lemma reassemble_snoc overlap (cs : list (list A)) (c : list A) :
  cs <> [] ->
  reassemble overlap (cs ++ [c])
  = reassemble overlap cs ++ drop (Z.to_nat overlap) c.
Proof.
  destruct cs as [|c0 rest]; [congruence|]. intros _.
  cbn [reassemble app]. rewrite map_app, concat_app. cbn [map concat].
  rewrite app_nil_r, app_assoc. reflexivity.
Qed.

(** Re-assembling the first [k] full windows gives the text up to the
    end of the last of them. *)
Lemma reassemble_full_windows text size overlap (k : nat) :
  0 <= overlap -> overlap < size ->
  Z.of_nat k * (size - overlap) + size <= Py.len text ->
  reassemble overlap (map (window text size overlap) (seq 0 (S k)))
  = take (Z.to_nat (Z.of_nat k * (size - overlap) + size)) text.
Proof.
  intros Hov Hsz. induction k as [|k IH]; intros Hk.
  - cbn [seq map reassemble concat]. rewrite app_nil_r.
    unfold window. rewrite Z.min_l by lia. rewrite slice_in_range by lia.
    cbn [Z.of_nat Z.mul Z.add]. rewrite drop_0. f_equal. lia.
  - rewrite seq_S, map_app. cbn [map].
    rewrite reassemble_snoc by (cbn; congruence).
    rewrite IH by nia.
    unfold window. rewrite Z.min_l by lia. rewrite slice_in_range by nia.
    rewrite skipn_firstn_comm, drop_drop.
    replace (Z.to_nat (Z.of_nat (0 + S k) * (size - overlap)) + Z.to_nat overlap)%nat
      with (Z.to_nat (Z.of_nat k * (size - overlap) + size)) by nia.
    rewrite take_take_drop. f_equal. nia.
Qed.

(** Re-assembling all the windows up to the one that reaches the end
    of the text gives the text back. *)
Lemma reassemble_windows text size overlap (m : nat) :
  0 <= overlap -> overlap < size ->
  (m = 0%nat \/ (Z.of_nat m - 1) * (size - overlap) + size < Py.len text) ->
  Py.len text <= Z.of_nat m * (size - overlap) + size ->
  reassemble overlap (map (window text size overlap) (seq 0 (S m))) = text.
Proof.
  intros Hov Hsz Hm Hend. destruct m as [|m].
  - cbn [seq map reassemble concat]. rewrite app_nil_r.
    unfold window. rewrite Z.min_r by lia.
    cbn [Z.of_nat Z.mul]. rewrite slice_to_end by (unfold Py.len; lia).
    apply drop_0.
  - destruct Hm as [Hm|Hm]; [discriminate|].
    rewrite seq_S, map_app. cbn [map].
    rewrite reassemble_snoc by (cbn; congruence).
    rewrite reassemble_full_windows by nia.
    unfold window. rewrite Z.min_r by lia.
    rewrite slice_to_end by nia. rewrite drop_drop.
    replace (Z.to_nat (Z.of_nat (0 + S m) * (size - overlap)) + Z.to_nat overlap)%nat
      with (Z.to_nat (Z.of_nat m * (size - overlap) + size)) by nia.
    apply take_drop.
Qed.

(** For a positive overlap the loop is still running after any
    number of iterations, in the state the bodies lead to. *)
Lemma chunk_text_running_iter text size overlap fuel :
  0 < Py.len text -> 0 < overlap ->
  _chunk_text fuel text size overlap
  = Running (Nat.iter fuel (body text size overlap)
                      {| start := 0; chunks := [] |}).
Proof.
  intros HL Hov. apply (loop_spins (fun st => start st < Py.len text)).
  - auto.
  - intros st Hst. cbn [body start]. lia.
  - cbn [start]. lia.
Qed.

(** The stride count of the design document is the ordinal of the
    first window that reaches the end of the text. *)
Lemma spec_chunk_count_last_window (L size overlap : Z) :
  0 <= overlap -> overlap < size -> overlap < L ->
  let n := Z.to_nat (spec_chunk_count L size overlap) in
  exists m : nat,
    n = S m
    /\ (m = 0%nat \/ (Z.of_nat m - 1) * (size - overlap) + size < L)
    /\ L <= Z.of_nat m * (size - overlap) + size.
Proof.
  intros Hov Hsz HL. unfold spec_chunk_count.
  destruct (Z.gtb_spec L 0); [|lia].
  rewrite Z.max_l by lia.
  pose proof (ceil_div_bounds (L - overlap) (size - overlap)) as [Hlo Hhi];
    [lia|].
  set (c := ceil_div (L - overlap) (size - overlap)) in *.
  assert (1 <= c) by nia.
  exists (Z.to_nat (c - 1)). cbn zeta. split; [lia|]. split.
  - destruct (Z.eq_dec c 1); [left; lia|right; nia].
  - nia.
Qed.

(** The chunks of a valid call with a positive overlap: after as many
    iterations as the design document counts chunks, the loop has
    appended exactly the windows, the last one ending at the end of
    the text, and they re-assemble to the text. *)
Lemma chunk_text_windows text size overlap :
  0 < overlap -> overlap < size -> overlap < Py.len text ->
  let n := Z.to_nat (spec_chunk_count (Py.len text) size overlap) in
  exists st,
    _chunk_text n text size overlap = Running st
    /\ chunks st = map (window text size overlap) (seq 0 n)
    /\ start st = Py.len text - overlap
    /\ reassemble overlap (chunks st) = text.
Proof.
  intros Hov Hsz HL n.
  destruct (spec_chunk_count_last_window (Py.len text) size overlap)
    as (m & Hn & Hm & Hend); [lia..|].
  fold n in Hn. rewrite Hn.
  rewrite chunk_text_running_iter by lia.
  rewrite iter_last_window by (assumption || lia).
  eexists. split; [reflexivity|]. cbn [chunks start].
  split; [reflexivity|]. split; [reflexivity|].
  apply reassemble_windows; (assumption || lia).
Qed.

Lemma length_slice text (a b : Z) :
  0 <= a -> a <= b -> b <= Py.len text ->
  length (Py.slice text a b) = Z.to_nat (b - a).
Proof.
  intros Ha Hab Hb. rewrite slice_in_range by lia.
  rewrite length_take, length_drop. unfold Py.len in *. lia.
Qed.

(** C3 (as amended).  For a text of length [L] and a valid size and
    overlap: an empty text gives the empty list; with [overlap = 0]
    the call returns exactly [ceil(L / size)] chunks (the count of the
    design document), a single chunk equal to the text when
    [0 < L <= size]; with [0 < overlap < L] the first
    [ceil((L - overlap) / (size - overlap))] iterations append the
    chunks [text[i*(size-overlap) : min(i*(size-overlap)+size, L)]], the
    last of which ends at [len(text)]; and for [L = 2500],
    [size = 1000], [overlap = 200] these are three chunks of lengths
    1000, 1000 and 900 starting at offsets 0, 800 and 1600. *)
Theorem chunk_count_by_design text size overlap :
  0 < size -> 0 <= overlap -> overlap < size ->
  let L := Py.len text in
  (L = 0 -> forall fuel, _chunk_text fuel text size overlap = Returned [])
  /\ (overlap = 0 -> forall fuel, (length text <= fuel)%nat ->
      exists cs,
        _chunk_text fuel text size overlap = Returned cs
        /\ Py.len cs = spec_chunk_count L size overlap
        /\ (0 < L -> L <= size -> cs = [text]))
  /\ (0 < overlap -> overlap < L ->
      let n := Z.to_nat (spec_chunk_count L size overlap) in
      exists st,
        _chunk_text n text size overlap = Running st
        /\ chunks st = map (window text size overlap) (seq 0 n)
        /\ start st = L - overlap)
  /\ (L = 2500 -> size = 1000 -> overlap = 200 ->
      exists st,
        _chunk_text 3 text size overlap = Running st
        /\ chunks st = [Py.slice text 0 1000; Py.slice text 800 1800;
                        Py.slice text 1600 2500]
        /\ map length (chunks st) = [1000; 1000; 900]%nat).
Proof.
  intros Hsize Hov0 Hov L. repeat split.
  - intros HL fuel. destruct text; [apply chunk_text_empty|].
    unfold L, Py.len in HL. cbn [length] in HL. lia.
  - intros -> fuel Hfuel.
    destruct (chunk_text_no_overlap text size fuel Hsize Hfuel)
      as (cs & Hrun & Hcat & Hlen).
    exists cs. split; [exact Hrun|]. split.
    + rewrite Hlen. unfold spec_chunk_count. fold L.
      destruct (Z.gtb_spec L 0).
      * rewrite Z.max_l by lia. f_equal; lia.
      * assert (L = 0) as -> by (unfold L, Py.len in *; lia). reflexivity.
    + intros HL0 HLs. fold L in Hlen.
      rewrite ceil_div_small in Hlen by lia.
      destruct cs as [|c [|c' cs']]; unfold Py.len in Hlen;
        cbn [length] in Hlen; try lia.
      cbn [concat] in Hcat. rewrite app_nil_r in Hcat. congruence.
  - intros Hpos HL n.
    destruct (chunk_text_windows text size overlap Hpos Hov HL)
      as (st & Hrun & Hch & Hst & _).
    exists st. auto.
  - intros HL -> ->.
    destruct (chunk_text_windows text 1000 200) as (st & Hrun & Hch & Hst & _);
      [lia..|].
    fold L in Hrun, Hch. rewrite HL in Hrun, Hch.
    change (Z.to_nat (spec_chunk_count 2500 1000 200)) with 3%nat in Hrun, Hch.
    exists st. split; [exact Hrun|].
    assert (chunks st = [Py.slice text 0 1000; Py.slice text 800 1800;
                         Py.slice text 1600 2500]) as Hcs.
    { rewrite Hch. cbn [seq map]. unfold window. fold L. rewrite HL.
      reflexivity. }
    split; [exact Hcs|]. rewrite Hcs. cbn [map].
    rewrite !length_slice by (fold L; lia). reflexivity.
Qed.

(** C9 (as amended).  With [overlap >= size] the call validates
    nothing and raises nothing: an empty text gives the empty list,
    and on a non-empty text longer than [size] the loop is entered
    and never left. *)
Theorem chunk_text_no_validation text size overlap :
  size <= overlap ->
  (forall fuel e,
     outcome_of_run (_chunk_text fuel text size overlap) <> Py.Raise e)
  /\ (text = [] -> forall fuel, _chunk_text fuel text size overlap = Returned [])
  /\ (text <> [] -> size < Py.len text ->
      forall fuel, exists st, _chunk_text fuel text size overlap = Running st).
Proof.
  intros Hov. split; [|split].
  - intros fuel e.
    destruct (_chunk_text fuel text size overlap); discriminate.
  - intros -> fuel. apply chunk_text_empty.
  - intros Hne _ fuel.
    destruct (chunk_text_spins_no_progress text size overlap) with (fuel := fuel)
      as (st & Hrun & _); [|assumption|eauto].
    destruct text; [congruence|]. unfold Py.len. cbn [length]. lia.
Qed.

End Facts.
(** C1 (defect in the code).  The call is meant to end once a chunk
    reaches the end of the text, but the exit test looks at the next
    start, [end - overlap]: with the default size 1000 and overlap 200
    the call on the one-character text ["a"] is still in its loop after
    any number of iterations, having appended one chunk in each. *)
Theorem chunk_text_default_never_returns :
  forall fuel, exists st,
    _chunk_text fuel (Py.chars "a") default_chunk_size default_overlap
    = Running st
    /\ length (chunks st) = fuel.
Proof.
  apply chunk_text_spins_overlap.
  - unfold Py.len. simpl. lia.
  - unfold default_overlap. lia.
Qed.

(** C2 (defect in the code).  On the text ["abc"] with size 2 and
    overlap 1 the call never returns a chunk list, so there is no
    result whose re-assembly could give the text back. *)
Theorem chunk_text_returns_nothing_to_reassemble :
  ~ exists fuel cs,
      _chunk_text fuel (Py.chars "abc") 2 1 = Returned cs
      /\ reassemble 1 cs = Py.chars "abc".
Proof.
  intros (fuel & cs & Hrun & _).
  destruct (chunk_text_spins_overlap (Py.chars "abc") 2 1) with (fuel := fuel)
    as (st & Hst & _).
  - unfold Py.len. simpl. lia.
  - lia.
  - congruence.
Qed.

(** The chunks the loop has appended when one first reaches the end of
    ["abc"] do re-assemble to the text: the loss is in not stopping. *)
Example chunk_text_abc_first_pass :
  exists st,
    _chunk_text 2 (Py.chars "abc") 2 1 = Running st
    /\ chunks st = [Py.chars "ab"; Py.chars "bc"]
    /\ reassemble 1 (chunks st) = Py.chars "abc".
Proof. eexists. repeat split. Qed.

Lemma chunk_count_by_design_witness :
  exists st,
    _chunk_text 3 Examples.text2500 1000 200 = Running st
    /\ chunks st = [Py.slice Examples.text2500 0 1000; Py.slice Examples.text2500 800 1800;
                    Py.slice Examples.text2500 1600 2500]
    /\ map length (chunks st) = [1000; 1000; 900]%nat.
Proof.
  destruct (chunk_count_by_design Examples.text2500 1000 200) as (_ & _ & _ & H);
    [lia | lia | lia |].
  apply H; reflexivity.
Defined.

(** C3 fails as stated: for a text of 2500 characters, size 1000 and
    overlap 200 the call returns no list of three chunks of lengths
    1000, 1000 and 700; the third chunk its loop appends has 900
    characters, and the loop goes on after it. *)
Lemma chunk_count_claim_fails :
  (~ exists fuel cs,
       _chunk_text fuel Examples.text2500 1000 200 = Returned cs
       /\ map length cs = [1000; 1000; 700]%nat)
  /\ exists st,
       _chunk_text 3 Examples.text2500 1000 200 = Running st
       /\ map length (chunks st) = [1000; 1000; 900]%nat.
Proof.
  split.
  - intros (fuel & cs & Hrun & _).
    destruct (chunk_text_spins_overlap Examples.text2500 1000 200) with (fuel := fuel)
      as (st & Hst & _); [reflexivity | lia | congruence].
  - eexists. split; vm_compute; reflexivity.
Qed.

Lemma chunk_text_no_validation_witness :
  _chunk_text 0 (@nil ascii) 1 1 = Returned []
  /\ exists st, _chunk_text 7 (Py.chars "ab") 1 1 = Running st.
Proof.
  split.
  - destruct (chunk_text_no_validation (@nil ascii) 1 1) as (_ & H & _);
      [lia |].
    apply H. reflexivity.
  - destruct (chunk_text_no_validation (Py.chars "ab") 1 1) as (_ & _ & H);
      [lia |].
    apply H; [discriminate | reflexivity].
Defined.

(** C9 fails as stated: with size 1 and overlap 1 the call on ["ab"]
    raises nothing, whatever the fuel, and is still in its loop. *)
Lemma chunk_text_validation_claim_fails :
  (forall fuel e,
     outcome_of_run (_chunk_text fuel (Py.chars "ab") 1 1) <> Py.Raise e)
  /\ forall fuel, exists st, _chunk_text fuel (Py.chars "ab") 1 1 = Running st.
Proof.
  assert (forall fuel, exists st,
            _chunk_text fuel (Py.chars "ab") 1 1 = Running st) as H.
  { intros fuel.
    destruct (chunk_text_spins_no_progress (Py.chars "ab") 1 1) with (fuel := fuel)
      as (st & Hst & _); [reflexivity | lia | eauto]. }
  split; [|exact H].
  intros fuel e. destruct (H fuel) as [st ->]. discriminate.
Qed.

End ChunkerFacts.

(** ** The downloader *)

Module DownloaderFacts.
Import Py PaperDownloader Design.

(** *** The file name *)

Lemma chars_of_chars l : chars (of_chars l) = l.
Proof. apply list_ascii_of_string_of_list_ascii. Qed.

Lemma of_chars_chars s : of_chars (chars s) = s.
Proof. apply string_of_list_ascii_of_string. Qed.

(** The test of the generator on a one-character item. *)
Lemma keeps_item (c : ascii) :
  isalnum (String c EmptyString)
  || bool_decide (String c EmptyString ∈ [" "; "-"; "_"])
  = keeps c.
Proof.
  destruct c as [[] [] [] [] [] [] [] []]; vm_compute; reflexivity.
Qed.

Lemma kept_items_chars (l : list ascii) :
  kept_items (map (fun c => VStr (String c EmptyString)) l)
  = Ok (map (fun c => String c EmptyString) (filter keeps l)).
Proof.
  induction l as [|c l IH]; [reflexivity|].
  cbn [map kept_items]. rewrite IH. cbn [bind]. rewrite keeps_item.
  rewrite filter_cons. destruct (keeps c) eqn:Hc.
  - rewrite decide_True by exact I. reflexivity.
  - rewrite decide_False by exact id. reflexivity.
Qed.

Lemma join_single_chars (l : list ascii) :
  join EmptyString (map (fun c => String c EmptyString) l) = of_chars l.
Proof.
  induction l as [|c l IH]; [reflexivity|].
  cbn [map join]. destruct l as [|c' l']; [reflexivity|].
  cbn [map] in *. rewrite IH. reflexivity.
Qed.

Lemma slice_prefix {A} (l : list A) (n : Z) :
  0 <= n -> slice l 0 n = take (Z.to_nat n) l.
Proof.
  intros Hn. unfold slice, slice_index.
  destruct (Z.ltb_spec n 0); [lia|]. cbn [Z.ltb Z.compare].
  rewrite (Z.min_l 0) by (unfold len; lia). rewrite Z.sub_0_r.
  change (Z.to_nat 0) with 0%nat. rewrite drop_0.
  destruct (Z.le_ge_cases n (len l)).
  - rewrite Z.min_l by lia. reflexivity.
  - rewrite Z.min_r by lia. unfold len in *.
    rewrite !take_ge by lia. reflexivity.
Qed.

(** On a string the two assignments of [safe_title] compute the
    sanitized title. *)
Lemma safe_title_str (t : string) :
  safe_title (VStr t) = Ok (sanitized_title t).
Proof.
  unfold safe_title, sanitized_title. cbn [iter bind].
  rewrite kept_items_chars. cbn [bind].
  rewrite join_single_chars, chars_of_chars, slice_prefix by lia.
  reflexivity.
Qed.

(** The surname branch, for a first author whose display name is a
    string. *)
Lemma author_lastname_first (a : value) (others : list value)
    (au : value) (name w : string) :
  get a "author" (VDict []) = Ok au ->
  get au "display_name" (VStr "unknown") = Ok (VStr name) ->
  surname name = Some w ->
  author_lastname (VList (a :: others)) = Ok (VStr w).
Proof.
  intros Ha Hau Hw. unfold author_lastname. cbn [truthy first_item bind].
  rewrite Ha. cbn [bind]. rewrite Hau. cbn [bind has_space].
  unfold surname in Hw. destruct (contains " " name).
  - cbn [split_last]. rewrite Hw. reflexivity.
  - congruence.
Qed.

(** C5 (as amended).  For a paper whose title is a string, whose year is
    an integer and whose author list is not empty, the file name is
    [{surname}_{year}_{sanitizedTitle}.pdf], where the surname is the
    last word of the FIRST author's display name (the whole name when it
    has no space) and the sanitized title keeps only alphanumerics,
    spaces, dashes and underscores, is cut to 50 characters, stripped of
    surrounding spaces, and has its spaces replaced by underscores. *)
Theorem filename_by_design (paper : dict) (t : string) (y : Z)
    (a : value) (others : list value) (au : value) (name w : string) :
  dict_get paper "title" (VStr "unknown") = VStr t ->
  dict_get paper "publication_year" (VStr "unknown") = VInt y ->
  dict_get paper "authorships" (VList []) = VList (a :: others) ->
  get a "author" (VDict []) = Ok au ->
  get au "display_name" (VStr "unknown") = Ok (VStr name) ->
  surname name = Some w ->
  filename paper
  = Ok (w +:+ "_" +:+ str_int y +:+ "_" +:+ sanitized_title t +:+ ".pdf").
Proof.
  intros Ht Hy Has Ha Hau Hw. unfold filename.
  rewrite Ht, Hy, Has, safe_title_str. cbn [bind].
  rewrite (author_lastname_first a others au name w Ha Hau Hw).
  reflexivity.
Qed.

Lemma filename_by_design_witness :
  filename Examples.notes = Ok "Lovelace_1843_Notes.pdf".
Proof.
  apply (filename_by_design Examples.notes "Notes" 1843
           (Examples.author "Ada Lovelace") [Examples.author "Charles Babbage"]
           (VDict [("display_name", VStr "Ada Lovelace")])
           "Ada Lovelace" "Lovelace");
    reflexivity.
Defined.

(** C5 fails as stated: for the paper by Ada Lovelace and Charles
    Babbage the name is built from the first author's surname, not from
    the last author's. *)
Lemma filename_uses_first_author :
  filename Examples.notes = Ok "Lovelace_1843_Notes.pdf"
  /\ filename Examples.notes <> Ok "Babbage_1843_Notes.pdf".
Proof. split; [reflexivity | discriminate]. Qed.

(** The title is stripped before its spaces are replaced. *)
Example sanitized_title_strips :
  safe_title (VStr " On  Engines! ") = Ok "On__Engines".
Proof. reflexivity. Qed.

(** A display name of spaces only has no last word to take. *)
Example filename_blank_author :
  filename [("authorships", VList [Examples.author "  "])] = Raise IndexError.
Proof. reflexivity. Qed.

(** *** The download *)

(** The loop over the stream appends every buffer to the file, as long
    as no progress update fails. *)
Lemma write_chunks_files (file_path : string) (progress : option Progress)
    (total_size : Z) (bufs : list (list Byte.byte)) :
  stalls progress total_size bufs = false ->
  forall (w : world) (old : list Byte.byte),
    files w !! file_path = Some old ->
    exists ups,
      write_chunks file_path progress total_size bufs w
      = (Ok tt, World (<[file_path := old ++ concat bufs]> (files w))
                      (console_out w) ups).
Proof.
  intros Hp. induction bufs as [|chunk rest IH]; intros w old Hold.
  - exists (progress_updates w). cbn [write_chunks concat]. unfold ret.
    rewrite app_nil_r, insert_id by exact Hold. destruct w; reflexivity.
  - assert (Hrest0 : stalls progress total_size rest = false).
    { unfold stalls in *. destruct progress as [p|]; [|reflexivity].
      destruct rest; [reflexivity | exact Hp]. }
    specialize (IH Hrest0).
    cbn [write_chunks concat]. unfold mbind_ at 1. unfold write at 1.
    rewrite Hold. cbn [default].
    set (fs1 := <[file_path := old ++ chunk]> (files w)).
    assert (fs1 !! file_path = Some (old ++ chunk)) as H1
      by apply lookup_insert_eq.
    assert (forall ups,
              exists ups',
                write_chunks file_path progress total_size rest
                  (World fs1 (console_out w) ups)
                = (Ok tt, World (<[file_path := old ++ chunk ++ concat rest]> (files w))
                                (console_out w) ups')) as Hrest.
    { intros ups.
      destruct (IH (World fs1 (console_out w) ups) (old ++ chunk) H1)
        as [ups' Hrun].
      exists ups'. rewrite Hrun. cbn [files console_out]. unfold fs1.
      rewrite insert_insert_eq, <- app_assoc. reflexivity. }
    unfold mbind_.
    destruct progress as [p|].
    + cbn [stalls] in Hp. destruct (total_size >? 0).
      * unfold progress_update. cbn [files console_out progress_updates].
        destruct (tasks p) as [|id ids] eqn:Htasks; [discriminate Hp|].
        apply Hrest.
      * unfold ret. apply Hrest.
    + unfold ret. apply Hrest.
Qed.





(** *** Text extraction *)

Lemma page_texts_ok (texts acc : list string) :
  page_texts (map Ok texts) acc
  = Ok (acc ++ filter (fun t => negb (String.eqb t EmptyString)) texts).
Proof.
  revert acc. induction texts as [|t texts IH]; intros acc.
  - cbn. rewrite app_nil_r. reflexivity.
  - cbn [map page_texts bind]. rewrite IH, filter_cons.
    destruct (String.eqb t EmptyString).
    + rewrite decide_False by exact id. reflexivity.
    + rewrite decide_True by exact I. rewrite <- app_assoc. reflexivity.
Qed.

Lemma page_texts_fail (texts : list string) (e : exn)
    (rest : list (outcome string)) (acc : list string) :
  page_texts (map Ok texts ++ Raise e :: rest) acc = Raise e.
Proof.
  revert acc. induction texts as [|t texts IH]; intros acc; [reflexivity|].
  cbn [map app page_texts bind]. apply IH.
Qed.

(** C7 (as amended).  For a PDF that can be opened, the extraction joins
    the non-empty page texts with a blank line when every page can be
    extracted; a page whose extraction fails is not skipped: the error
    leaves the loop and the whole extraction fails with the wrapping
    exception. *)
Theorem extract_text_all_or_nothing {float} (libs : libraries float)
    (file_path : string) (w : world)
    (PdfReader : list Byte.byte -> outcome (list (outcome string)))
    (content : list Byte.byte) (pages : list (outcome string)) :
  pypdf libs = Some PdfReader ->
  files w !! file_path = Some content ->
  PdfReader content = Ok pages ->
  (forall texts,
     pages = map Ok texts ->
     _extract_text libs file_path w = (Ok (joined_pages texts), w))
  /\ (forall texts e rest,
        pages = map Ok texts ++ Raise e :: rest ->
        is_Exception e = true ->
        _extract_text libs file_path w
        = (Raise (Exception_ "PDF 文本提取失败" e), w)).
Proof.
  intros Hlib Hfile Hread. split.
  - intros texts ->. unfold _extract_text, try_except, extract_text_try.
    rewrite Hlib, Hfile, Hread. cbn [bind]. rewrite page_texts_ok.
    reflexivity.
  - intros texts e rest -> He. unfold _extract_text, try_except, extract_text_try.
    rewrite Hlib, Hfile, Hread. cbn [bind]. rewrite page_texts_fail.
    cbn [bind]. rewrite He. reflexivity.
Qed.

Lemma extract_text_all_or_nothing_witness :
  _extract_text Examples.pypdf_bad_page Examples.dest Examples.disk
  = (Raise (Exception_ "PDF 文本提取失败" (LibraryError "PdfReadError" "page 2")),
     Examples.disk).
Proof.
  destruct (extract_text_all_or_nothing Examples.pypdf_bad_page Examples.dest
              Examples.disk
              (fun _ => Ok [Ok "a"; Raise (LibraryError "PdfReadError" "page 2");
                            Ok "b"])
              [Byte.x01]
              [Ok "a"; Raise (LibraryError "PdfReadError" "page 2"); Ok "b"])
    as [_ H]; [reflexivity | reflexivity | reflexivity |].
  apply (H ["a"] (LibraryError "PdfReadError" "page 2") [Ok "b"]); reflexivity.
Defined.

(** C7 fails as stated: of three pages the second cannot be extracted;
    the call raises instead of returning the text of the other two. *)
Lemma extract_text_page_failure_is_fatal :
  let r := _extract_text Examples.pypdf_bad_page Examples.dest Examples.disk in
  fst r = Raise (Exception_ "PDF 文本提取失败"
                   (LibraryError "PdfReadError" "page 2"))
  /\ fst r <> Ok (joined_pages ["a"; "b"]).
Proof. split; [vm_compute; reflexivity | vm_compute; discriminate]. Qed.

(** *** Embeddings *)

(** Printing succeeds where [console] is bound and fails where it is
    not. *)
Lemma console_print_bound (g : list string) (msg : string) (w : world) :
  "console" ∈ g ->
  console_print g msg w
  = (Ok tt, World (files w) (console_out w ++ [msg]) (progress_updates w)).
Proof. intros Hg. unfold console_print. rewrite bool_decide_eq_true_2; auto. Qed.

Lemma console_print_unbound (msg : string) (w : world) :
  console_print module_globals msg w = (Raise (NameError "console"), w).
Proof. reflexivity. Qed.




(** *** Indexing without a database *)

(** With no database host the call is the notice followed by the empty
    id, whatever the namespace. *)
Lemma index_paper_unconfigured {float} (g : list string)
    (libs : libraries float) (fuel : nat) (self : self_) (paper : dict)
    (file_path : string) :
  Config.truthy (Config.host (Config.database (config self))) = false ->
  index_paper g libs fuel self paper file_path
  = (console_print g "[yellow]未配置数据库，跳过索引建立[/yellow]" ;; ret EmptyString).
Proof. intros H. unfold index_paper. rewrite H. reflexivity. Qed.

(** Where [console] is bound, the call returns the empty id and leaves
    the files as they are. *)
Lemma index_paper_skips_with_console {float} (g : list string)
    (libs : libraries float) (fuel : nat) (self : self_) (paper : dict)
    (file_path : string) (w : world) :
  "console" ∈ g ->
  Config.truthy (Config.host (Config.database (config self))) = false ->
  exists w',
    index_paper g libs fuel self paper file_path w = (Ok EmptyString, w')
    /\ files w' = files w.
Proof.
  intros Hg H. rewrite index_paper_unconfigured by exact H.
  unfold mbind_. rewrite console_print_bound by exact Hg.
  eexists. split; reflexivity.
Qed.

(** C4 (defect in the code).  [downloader.py] never binds the name
    [console] that its sibling modules define, so with no database host
    the call stops at the notice it wants to print: it raises a
    [NameError] instead of returning the skipped result.  The world,
    and with it the downloaded file, is left as it was. *)
Theorem index_paper_unconfigured_raises {float} (libs : libraries float)
    (fuel : nat) (self : self_) (paper : dict) (file_path : string)
    (w : world) :
  Config.truthy (Config.host (Config.database (config self))) = false ->
  index_paper module_globals libs fuel self paper file_path w
  = (Raise (NameError "console"), w).
Proof.
  intros H. rewrite index_paper_unconfigured by exact H. reflexivity.
Qed.

Lemma index_paper_unconfigured_raises_witness :
  index_paper module_globals Examples.no_libraries 0 Examples.downloader
    Examples.notes Examples.dest Examples.disk
  = (Raise (NameError "console"), Examples.disk).
Proof.
  apply (index_paper_unconfigured_raises Examples.no_libraries 0
           Examples.downloader Examples.notes Examples.dest Examples.disk).
  reflexivity.
Defined.

End DownloaderFacts.

(** ** The index store *)

Module StoreFacts.
Import Py SurrealDBClient.

(** A new client is not connected, and a failed [connect] leaves it so. *)
Lemma init_not_connected (cfg : Config.Config) : client (__init__ cfg) = None.
Proof. reflexivity. Qed.

Lemma connect_without_host surrealdb (cfg : Config.Config) :
  Config.truthy (Config.host (Config.database cfg)) = false ->
  connect surrealdb (__init__ cfg) = (Ok false, __init__ cfg).
Proof.
  unfold connect, __init__. cbn [host].
  destruct (Config.host (Config.database cfg)) as [h|]; [|reflexivity].
  cbn [Config.truthy]. destruct (String.eqb h EmptyString); [reflexivity|].
  discriminate.
Qed.

(** C10 (as amended).  On a client that is not connected every
    mutation is a no-op: it sends no query, never raises, and returns the
    empty value of its result type, the empty string for the two inserts
    and [False] for the deletion. *)
Theorem mutations_without_client {float} (repr_float : float -> string)
    (self : self_) (paper : dict) (paper_id content : string)
    (embedding : list float) (sent : list string) :
  client self = None ->
  add_paper self paper sent = (Ok EmptyString, sent)
  /\ add_chunk repr_float self paper_id content embedding sent
     = (Ok EmptyString, sent)
  /\ delete_paper self paper_id sent = (Ok false, sent).
Proof.
  intros H. unfold add_paper, add_chunk, delete_paper. rewrite H.
  repeat split.
Qed.

Lemma mutations_without_client_witness :
  add_paper (__init__ Config.default) Examples.notes [] = (Ok EmptyString, [])
  /\ add_chunk (fun _ : unit => "0.0") (__init__ Config.default) "p1" "text" [tt] []
     = (Ok EmptyString, [])
  /\ delete_paper (__init__ Config.default) "p1" [] = (Ok false, []).
Proof.
  apply (mutations_without_client (fun _ : unit => "0.0")
           (__init__ Config.default) Examples.notes "p1" "text" [tt] []).
  reflexivity.
Defined.

(** C10 fails as stated: the result of [add_paper] on a client without a
    store is the very value a connected client returns when its server
    answers with the empty string, so it does not say "not configured". *)
Lemma add_paper_result_is_silent :
  fst (add_paper (__init__ Config.default) Examples.notes []) = Ok EmptyString
  /\ fst (add_paper Examples.connected Examples.notes []) = Ok EmptyString
  /\ snd (add_paper Examples.connected Examples.notes []) <> [].
Proof. repeat split; vm_compute; (reflexivity || discriminate). Qed.

End StoreFacts.

(** ** More on the chunker *)

Module ChunkerMore.
Import Chunker ChunkerFacts.

Section More.
Context {A : Type}.
Implicit Types (text : list A) (st : loop_state A).

(** X1.  On every non-empty text and for every positive overlap,
    whatever the chunk size, the call has not returned after any number
    of iterations, and has appended one chunk in each. *)
Theorem chunk_text_never_returns_with_overlap text size overlap fuel :
  text <> [] -> 0 < overlap ->
  exists st,
    _chunk_text fuel text size overlap = Running st
    /\ length (chunks st) = fuel.
Proof.
  intros Hne Hov. apply chunk_text_spins_overlap; [|exact Hov].
  destruct text; [congruence|]. unfold Py.len. cbn [length]. lia.
Qed.

Lemma loop_no_overlap_sizes text size :
  0 < size ->
  forall fuel st,
    0 <= start st -> start st <= Py.len text ->
    Py.len text - start st <= Z.of_nat fuel ->
    exists cs,
      loop fuel text size 0 st = Returned (chunks st ++ cs)
      /\ Forall (fun c => 0 < Py.len c /\ Py.len c <= size) cs.
Proof.
  intros Hsize. induction fuel as [|fuel IH]; intros st H0 HL Hfuel.
  - exists []. rewrite loop_exit by lia. rewrite app_nil_r. auto.
  - destruct (Z.eq_dec (start st) (Py.len text)) as [Heq|Hne].
    { exists []. rewrite loop_exit by lia. rewrite app_nil_r. auto. }
    rewrite loop_S.
    destruct (Z.ltb_spec (start st) (Py.len text)); [|lia].
    unfold body. cbn [start chunks]. rewrite Z.sub_0_r.
    assert (Hlen : forall e, start st < e -> e <= Py.len text -> e <= start st + size ->
              0 < Py.len (Py.slice text (start st) e)
              /\ Py.len (Py.slice text (start st) e) <= size).
    { intros e He1 He2 He3.
      pose proof (length_slice text (start st) e) as Hl.
      change (Py.len (Py.slice text (start st) e))
        with (Z.of_nat (length (Py.slice text (start st) e))).
      rewrite Hl by lia. lia. }
    destruct (Z.geb_spec ((start st + size) `min` Py.len text) (Py.len text))
      as [Hge|Hlt].
    + eexists [_]. split; [reflexivity|].
      constructor; [|constructor]. apply Hlen; lia.
    + rewrite Z.min_l in * by lia.
      destruct (IH {| start := start st + size;
                      chunks := chunks st ++ [Py.slice text (start st) (start st + size)] |})
        as (cs & Hrun & Hall); cbn [start chunks]; try lia.
      cbn [start chunks] in Hrun.
      exists (Py.slice text (start st) (start st + size) :: cs).
      split; [rewrite Hrun, <- app_assoc; reflexivity|].
      constructor; [apply Hlen; lia | exact Hall].
Qed.

(** X2.  Without overlap and with a positive chunk size the call
    returns once the fuel covers the text; its chunks, concatenated in
    order, are the text, none of them is empty and none is longer than
    the chunk size. *)
Theorem chunk_text_partitions text size fuel :
  0 < size -> (length text <= fuel)%nat ->
  exists cs,
    _chunk_text fuel text size 0 = Returned cs
    /\ concat cs = text
    /\ Forall (fun c => 0 < Py.len c /\ Py.len c <= size) cs.
Proof.
  intros Hsize Hfuel.
  destruct (chunk_text_no_overlap text size fuel Hsize Hfuel)
    as (cs & Hrun & Hcat & _).
  destruct (loop_no_overlap_sizes text size Hsize fuel {| start := 0; chunks := [] |})
    as (cs' & Hrun' & Hall); cbn [start chunks]; try (unfold Py.len; lia).
  unfold _chunk_text in Hrun. rewrite Hrun in Hrun'. cbn [app] in Hrun'.
  injection Hrun' as ->. eauto.
Qed.

(** X3.  For a valid size and a positive overlap shorter than the text,
    the chunks the loop has appended when one first reaches the end of
    the text re-assemble to the text: dropping the first [overlap]
    characters of every chunk but the first and concatenating gives the
    text back. *)
Theorem first_pass_reassembles text size overlap :
  0 < overlap -> overlap < size -> overlap < Py.len text ->
  exists st,
    _chunk_text (Z.to_nat (spec_chunk_count (Py.len text) size overlap))
                text size overlap = Running st
    /\ start st = Py.len text - overlap
    /\ reassemble overlap (chunks st) = text.
Proof.
  intros Hov Hsz HL.
  destruct (chunk_text_windows text size overlap Hov Hsz HL)
    as (st & Hrun & _ & Hst & Hre).
  exists st. auto.
Qed.

(** A full window is [size] characters from its start. *)
Lemma window_full text size overlap (i : nat) :
  0 <= overlap -> overlap < size ->
  Z.of_nat i * (size - overlap) + size <= Py.len text ->
  window text size overlap i
  = take (Z.to_nat size) (drop (Z.to_nat (Z.of_nat i * (size - overlap))) text).
Proof.
  intros Hov Hsz Hi. unfold window. rewrite Z.min_l by lia.
  rewrite slice_in_range by nia. f_equal. lia.
Qed.

(** X4.  For a valid size and overlap, two consecutive chunks of the
    first pass share exactly the overlap: whenever the loop has appended
    chunks number [i] and [i + 1], the last [overlap] characters of the
    first are the first [overlap] characters of the second. *)
Theorem consecutive_chunks_overlap text size overlap (i : nat) c c' :
  0 < overlap -> overlap < size -> overlap < Py.len text ->
  forall st,
    _chunk_text (Z.to_nat (spec_chunk_count (Py.len text) size overlap))
                text size overlap = Running st ->
    chunks st !! i = Some c ->
    chunks st !! S i = Some c' ->
    length c = Z.to_nat size
    /\ drop (Z.to_nat (size - overlap)) c = take (Z.to_nat overlap) c'.
Proof.
  intros Hov Hsz HL st Hrun Hc Hc'.
  destruct (chunk_text_windows text size overlap Hov Hsz HL)
    as (st0 & Hrun0 & Hch & _ & _).
  rewrite Hrun in Hrun0. injection Hrun0 as <-.
  destruct (spec_chunk_count_last_window (Py.len text) size overlap)
    as (m & Hn & Hm & Hend); [lia..|].
  rewrite Hn in Hch. rewrite Hch in Hc, Hc'.
  rewrite list_lookup_fmap in Hc, Hc'.
  destruct (seq 0 (S m) !! i) as [j|] eqn:Hj; [|discriminate].
  destruct (seq 0 (S m) !! S i) as [j'|] eqn:Hj'; [|discriminate].
  apply lookup_seq in Hj as [-> Hi]. apply lookup_seq in Hj' as [-> Hi'].
  cbn [option_map fmap option_fmap] in Hc, Hc'.
  injection Hc as <-. injection Hc' as <-.
  cbn [Nat.add].
  assert (Hfull : Z.of_nat i * (size - overlap) + size < Py.len text).
  { destruct Hm as [->|Hm]; [lia|]. nia. }
  rewrite window_full by lia. split.
  - rewrite length_take, length_drop. unfold Py.len in *. nia.
  - unfold window at 1.
    rewrite slice_in_range; [| nia | | apply Z.le_min_r].
    2:{ apply Z.min_glb; nia. }
    rewrite skipn_firstn_comm, drop_drop, take_take.
    f_equal; [|f_equal]; nia.
Qed.

End More.

Lemma chunk_text_never_returns_with_overlap_witness :
  exists st,
    _chunk_text 4 Cases.hello 3 1 = Running st /\ length (chunks st) = 4%nat.
Proof.
  apply (chunk_text_never_returns_with_overlap Cases.hello 3 1 4);
    [discriminate | lia].
Defined.

Lemma chunk_text_partitions_witness :
  exists cs,
    _chunk_text 11 Cases.hello 4 0 = Returned cs
    /\ concat cs = Cases.hello
    /\ Forall (fun c => 0 < Py.len c /\ Py.len c <= 4) cs.
Proof.
  apply (chunk_text_partitions Cases.hello 4 11); [lia | vm_compute; lia].
Defined.

Lemma first_pass_reassembles_witness :
  exists st,
    _chunk_text 5 Cases.hello 3 1 = Running st
    /\ start st = 10
    /\ reassemble 1 (chunks st) = Cases.hello.
Proof.
  apply (first_pass_reassembles Cases.hello 3 1); [lia | lia | reflexivity].
Defined.

Lemma consecutive_chunks_overlap_witness :
  length (Py.chars "hel") = 3%nat
  /\ drop 2 (Py.chars "hel") = take 1 (Py.chars "llo").
Proof.
  apply (consecutive_chunks_overlap Cases.hello 3 1 0
           (Py.chars "hel") (Py.chars "llo"))
    with (st := {| start := 10;
                   chunks := map Py.chars ["hel"; "llo"; "o w"; "wor"; "rld"] |});
    [lia | lia | reflexivity | reflexivity | reflexivity | reflexivity].
Defined.

End ChunkerMore.

(** ** More on the downloader *)

Module DownloaderMore.
Import Py PaperDownloader Design DownloaderFacts.

(** *** The sanitized title *)

Lemma lstrip_chars_suffix (l : list ascii) :
  exists pre, l = pre ++ lstrip_chars l.
Proof.
  induction l as [|c l [pre IH]]; [exists []; reflexivity|].
  cbn [lstrip_chars]. destruct (isspace_char c).
  - exists (c :: pre). cbn [app]. f_equal. exact IH.
  - exists []. reflexivity.
Qed.

Lemma Forall_lstrip_chars (P : ascii -> Prop) (l : list ascii) :
  Forall P l -> Forall P (lstrip_chars l).
Proof.
  intros H. destruct (lstrip_chars_suffix l) as [pre Hpre].
  rewrite Hpre in H. apply Forall_app in H. tauto.
Qed.

Lemma length_lstrip_chars (l : list ascii) :
  (length (lstrip_chars l) <= length l)%nat.
Proof.
  destruct (lstrip_chars_suffix l) as [pre Hpre].
  rewrite Hpre at 2. rewrite length_app. lia.
Qed.

Lemma chars_strip (s : string) :
  chars (strip s) = rev (lstrip_chars (rev (lstrip_chars (chars s)))).
Proof. unfold strip. apply chars_of_chars. Qed.

Lemma chars_replace_char (old new : ascii) (s : string) :
  chars (replace old (String new EmptyString) s)
  = map (fun c => if Ascii.eqb c old then new else c) (chars s).
Proof.
  unfold replace. rewrite chars_of_chars.
  induction (chars s) as [|c l IH]; [reflexivity|].
  cbn [flat_map map]. rewrite IH. destruct (Ascii.eqb c old); reflexivity.
Qed.

(** X5.  Whatever the title, the sanitized part of the file name has at
    most 50 characters, each of them alphanumeric, a dash or an
    underscore: no space, dot or path separator comes from the title. *)
Theorem safe_title_is_safe (t : string) :
  exists s,
    safe_title (VStr t) = Ok s
    /\ (length (chars s) <= 50)%nat
    /\ Forall (fun c => isalnum_char c = true \/ c = "-"%char \/ c = "_"%char)
              (chars s).
Proof.
  exists (sanitized_title t). split; [apply safe_title_str|].
  unfold sanitized_title. rewrite chars_replace_char, chars_strip, chars_of_chars.
  set (kept := take 50 (filter keeps (chars t))).
  assert (Hkept : Forall (fun c => keeps c = true) kept).
  { unfold kept. apply Forall_take. apply Forall_forall.
    intros c Hc. apply list_elem_of_filter in Hc as [Hc _].
    destruct (keeps c); [reflexivity | destruct Hc]. }
  assert (Hlen : (length kept <= 50)%nat).
  { unfold kept. rewrite length_take. lia. }
  split.
  - rewrite length_map, length_rev.
    pose proof (length_lstrip_chars (rev (lstrip_chars kept))) as H1.
    pose proof (length_lstrip_chars kept) as H2.
    rewrite length_rev in H1. lia.
  - apply Forall_map.
    assert (Hs : Forall (fun c => keeps c = true)
                   (rev (lstrip_chars (rev (lstrip_chars kept))))).
    { apply Forall_rev, Forall_lstrip_chars, Forall_rev, Forall_lstrip_chars.
      exact Hkept. }
    eapply Forall_impl; [exact Hs|]. intros c Hc. cbn beta.
    destruct (Ascii.eqb c " ") eqn:Hsp; [right; right; reflexivity|].
    unfold keeps in Hc. rewrite Hsp in Hc.
    destruct (isalnum_char c); [left; reflexivity|]. cbn [orb] in Hc.
    destruct (Ascii.eqb_spec c "-"); [right; left; assumption|].
    destruct (Ascii.eqb_spec c "_"); [right; right; assumption|].
    discriminate.
Qed.

(** *** The download, when it succeeds and when it does not *)

(** X6.  When the request succeeds, the destination can be opened, the
    stream ends normally and no progress update fails (there is no
    progress display, or the content length is not positive, or the
    display has a task, or the stream delivers no buffer), the call
    returns the destination path and the file there holds exactly the
    bytes of the stream, in order; the console is not used. *)
Theorem download_stores_the_body
    (httpx_stream : string -> outcome response)
    (os_open : string -> option exn) (self : self_) (paper : dict)
    (url : string) (progress : option Progress) (w : world)
    (fname : string) (resp : response) (total : Z) :
  filename paper = Ok fname ->
  httpx_stream url = Ok resp ->
  raise_for_status resp = None ->
  content_length resp = Ok total ->
  os_open (path_join (download_dir self) fname) = None ->
  stream_error resp = None ->
  stalls progress total (iter_bytes resp) = false ->
  exists w',
    download_pdf httpx_stream os_open self paper url progress w
    = (Ok (path_join (download_dir self) fname), w')
    /\ files w' = <[path_join (download_dir self) fname
                    := concat (iter_bytes resp)]> (files w)
    /\ console_out w' = console_out w.
Proof.
  intros Hname Hresp Hst Hlen Hopen Herr Hp.
  unfold download_pdf. unfold mbind_ at 1. unfold lift at 1. rewrite Hname.
  unfold mbind_ at 1. unfold lift at 1. rewrite Hresp.
  rewrite Hst, Hlen, Herr.
  unfold mbind_ at 1. unfold ret at 1.
  unfold mbind_ at 1. unfold lift at 1.
  unfold mbind_ at 1. unfold open_wb at 1. rewrite Hopen.
  set (path := path_join (download_dir self) fname).
  set (w1 := World (<[path := []]> (files w)) (console_out w)
                   (progress_updates w)).
  destruct (write_chunks_files path progress total (iter_bytes resp) Hp w1 [])
    as [ups Hrun]; [apply lookup_insert_eq|].
  unfold mbind_ at 1. rewrite Hrun.
  unfold mbind_, ret. eexists. split; [reflexivity|].
  cbn [files console_out w1 app]. split; [apply insert_insert_eq | reflexivity].
Qed.

Lemma download_stores_the_body_witness :
  exists w',
    download_pdf (fun _ => Ok Cases.unsized_response) (fun _ => None)
      Examples.downloader Examples.notes "http://example.org/notes.pdf"
      (Some Download.new_progress) Examples.disk
    = (Ok Examples.dest, w')
    /\ files w' = <[Examples.dest := concat (iter_bytes Cases.unsized_response)]>
                    (files Examples.disk)
    /\ console_out w' = console_out Examples.disk.
Proof.
  apply (download_stores_the_body (fun _ => Ok Cases.unsized_response)
           (fun _ => None) Examples.downloader Examples.notes
           "http://example.org/notes.pdf" (Some Download.new_progress)
           Examples.disk "Lovelace_1843_Notes.pdf" Cases.unsized_response 0);
    reflexivity.
Defined.




(** *** The progress display *)

Lemma write_chunks_progress (file_path : string) (p : Progress) (id : Z)
    (ids : list Z) (total_size : Z) (bufs : list (list Byte.byte)) :
  tasks p = id :: ids -> 0 < total_size ->
  forall w,
    exists fs,
      write_chunks file_path (Some p) total_size bufs w
      = (Ok tt, World fs (console_out w)
                  (progress_updates w
                   ++ map (fun b => (id, len b, total_size)) bufs)).
Proof.
  intros Hp Htot. induction bufs as [|chunk rest IH]; intros w.
  - exists (files w). cbn [write_chunks map]. rewrite app_nil_r.
    destruct w; reflexivity.
  - cbn [write_chunks]. unfold mbind_ at 1. unfold write at 1.
    unfold mbind_.
    destruct (Z.gtb_spec total_size 0); [|lia].
    unfold progress_update. rewrite Hp. cbn [files console_out progress_updates].
    set (w2 := World _ _ _).
    destruct (IH w2) as [fs Hrun]. exists fs. rewrite Hrun.
    unfold w2. cbn [console_out progress_updates map].
    rewrite <- app_assoc. reflexivity.
Qed.

Lemma advanced_map (id total : Z) (bufs : list (list Byte.byte)) :
  Effects.advanced (map (fun b => (id, len b, total)) bufs) = len (concat bufs).
Proof.
  induction bufs as [|b rest IH]; [reflexivity|].
  cbn [map Effects.advanced fold_right concat fst snd].
  fold (Effects.advanced (map (fun b => (id, len b, total)) rest)).
  rewrite IH. unfold len. rewrite length_app. lia.
Qed.

(** X8.  With a progress display that has a task and a positive content
    length, once the destination has been opened the call reports one update per buffer of the stream to the
    first task, each with the length of its buffer and the content
    length as total, so the advances add up to the bytes written to the
    file; this holds whether the stream ends or breaks. *)
Theorem download_reports_every_buffer
    (httpx_stream : string -> outcome response)
    (os_open : string -> option exn) (self : self_) (paper : dict)
    (url : string) (p : Progress) (id : Z) (ids : list Z) (w : world)
    (fname : string) (resp : response) (total : Z) :
  filename paper = Ok fname ->
  httpx_stream url = Ok resp ->
  raise_for_status resp = None ->
  content_length resp = Ok total ->
  os_open (path_join (download_dir self) fname) = None ->
  0 < total ->
  tasks p = id :: ids ->
  exists new,
    progress_updates
      (snd (download_pdf httpx_stream os_open self paper url (Some p) w))
    = progress_updates w ++ new
    /\ new = map (fun b => (id, len b, total)) (iter_bytes resp)
    /\ Effects.advanced new = len (concat (iter_bytes resp)).
Proof.
  intros Hname Hresp Hst Hlen Hopen Htot Hp.
  exists (map (fun b => (id, len b, total)) (iter_bytes resp)).
  split; [|split; [reflexivity | apply advanced_map]].
  unfold download_pdf. unfold mbind_ at 1. unfold lift at 1. rewrite Hname.
  unfold mbind_ at 1. unfold lift at 1. rewrite Hresp.
  rewrite Hst, Hlen.
  unfold mbind_ at 1. unfold ret at 1.
  unfold mbind_ at 1. unfold lift at 1.
  unfold mbind_ at 1. unfold open_wb at 1. rewrite Hopen.
  set (w1 := World _ _ _).
  destruct (write_chunks_progress (path_join (download_dir self) fname) p id ids
              total (iter_bytes resp) Hp Htot w1) as [fs Hrun].
  unfold mbind_ at 1. rewrite Hrun.
  unfold mbind_. destruct (stream_error resp); reflexivity.
Qed.

Lemma download_reports_every_buffer_witness :
  exists new,
    progress_updates
      (snd (download_pdf (fun _ => Ok Cases.good_response) (fun _ => None)
              Examples.downloader Examples.notes "http://example.org/notes.pdf"
              (Some {| tasks := [7] |}) Examples.disk))
    = progress_updates Examples.disk ++ new
    /\ new = [(7, 2, 3); (7, 1, 3)]
    /\ Effects.advanced new = 3.
Proof.
  apply (download_reports_every_buffer (fun _ => Ok Cases.good_response)
           (fun _ => None) Examples.downloader Examples.notes "http://example.org/notes.pdf"
           {| tasks := [7] |} 7 [] Examples.disk "Lovelace_1843_Notes.pdf"
           Cases.good_response 3);
    reflexivity.
Defined.

(** X9.  With a progress display that has no task (the one every
    command of [download.py] passes) and a positive content length,
    once the destination has been opened the call raises [IndexError]
    at its first progress update: the first
    buffer of the stream has been written to the destination and nothing
    more. *)
Theorem download_fails_without_task
    (httpx_stream : string -> outcome response)
    (os_open : string -> option exn) (self : self_) (paper : dict)
    (url : string) (p : Progress) (w : world)
    (fname : string) (resp : response) (total : Z)
    (b : list Byte.byte) (rest : list (list Byte.byte)) :
  filename paper = Ok fname ->
  httpx_stream url = Ok resp ->
  raise_for_status resp = None ->
  content_length resp = Ok total ->
  os_open (path_join (download_dir self) fname) = None ->
  0 < total ->
  tasks p = [] ->
  iter_bytes resp = b :: rest ->
  download_pdf httpx_stream os_open self paper url (Some p) w
  = (Raise IndexError,
     World (<[path_join (download_dir self) fname := b]> (files w))
           (console_out w) (progress_updates w)).
Proof.
  intros Hname Hresp Hst Hlen Hopen Htot Hp Hbufs.
  unfold download_pdf. unfold mbind_ at 1. unfold lift at 1. rewrite Hname.
  unfold mbind_ at 1. unfold lift at 1. rewrite Hresp.
  rewrite Hst, Hlen, Hbufs.
  unfold mbind_ at 1. unfold ret at 1.
  unfold mbind_ at 1. unfold lift at 1.
  unfold mbind_ at 1. unfold open_wb at 1. rewrite Hopen.
  cbn [write_chunks]. unfold mbind_, write, progress_update.
  cbn [files console_out progress_updates].
  destruct (Z.gtb_spec total 0); [|lia]. rewrite Hp.
  rewrite lookup_insert_eq. cbn [default app].
  rewrite insert_insert_eq. reflexivity.
Qed.

Lemma download_fails_without_task_witness :
  download_pdf (fun _ => Ok Cases.good_response) (fun _ => None)
    Examples.downloader
    Examples.notes "http://example.org/notes.pdf" (Some Download.new_progress)
    Examples.disk
  = (Raise IndexError,
     World (<[Examples.dest := [Byte.x25; Byte.x50]]> (files Examples.disk))
           [] []).
Proof.
  apply (download_fails_without_task (fun _ => Ok Cases.good_response)
           (fun _ => None) Examples.downloader Examples.notes "http://example.org/notes.pdf"
           Download.new_progress Examples.disk "Lovelace_1843_Notes.pdf"
           Cases.good_response 3 [Byte.x25; Byte.x50] [[Byte.x44]]);
    reflexivity.
Defined.

(** The surname is not sanitized: a first author whose name carries a
    slash puts the destination into a directory that nothing has
    created; opening it fails and the call raises, the disk untouched. *)
Example download_into_missing_directory :
  filename Cases.slash_author = Ok "AC/DC_1980_Back_in_Black.pdf"
  /\ download_pdf (fun _ => Ok Cases.good_response) Cases.no_such_directory
       Examples.downloader Cases.slash_author "http://example.org/b.pdf" None
       Examples.disk
     = (Raise (LibraryError "FileNotFoundError"
                 "/papers/AC/DC_1980_Back_in_Black.pdf"),
        Examples.disk).
Proof. split; vm_compute; reflexivity. Qed.

(** The destination is the path as [pathlib] prints it: a dot component
    that comes with the surname is dropped. *)
Example download_path_is_normalised :
  filename Cases.dot_author = Ok "./x_1980_T.pdf"
  /\ fst (download_pdf (fun _ => Ok Cases.unsized_response) (fun _ => None)
            Examples.downloader Cases.dot_author "http://example.org/t.pdf"
            None Examples.disk)
     = Ok "/papers/x_1980_T.pdf".
Proof. split; vm_compute; reflexivity. Qed.

(** *** Text extraction *)

Lemma extract_text_cases {float} (libs : libraries float)
    (file_path : string) (w : world) :
  snd (_extract_text libs file_path w) = w
  /\ forall e,
       fst (_extract_text libs file_path w) = Raise e ->
       e = KeyboardInterrupt
       \/ exists cause, e = Exception_ "PDF 文本提取失败" cause.
Proof.
  unfold _extract_text, try_except, extract_text_try.
  destruct (pypdf libs) as [PdfReader|].
  - destruct (files w !! file_path) as [content|].
    + destruct (bind (PdfReader content) _) as [text|e|] eqn:Hb.
      * split; [reflexivity | discriminate].
      * destruct e; cbn [is_Exception raise fst snd];
          (split; [reflexivity|]); intros e' He'; injection He' as <-; eauto.
      * split; [reflexivity | discriminate].
    + cbn [is_Exception raise fst snd]. split; [reflexivity|].
      intros e He. injection He as <-. eauto.
  - cbn [is_Exception raise fst snd]. split; [reflexivity|].
    intros e He. injection He as <-. eauto.
Qed.


(** *** Indexing *)

Import Effects.

Lemma preserves_files_bind {A B} (m : M A) (k : A -> M B) :
  preserves_files m -> (forall a, preserves_files (k a)) ->
  preserves_files (mbind_ m k).
Proof.
  intros Hm Hk w. unfold mbind_. specialize (Hm w).
  destruct (m w) as [[a|e|] w1]; cbn [snd] in *; try exact Hm.
  rewrite Hk. exact Hm.
Qed.

Lemma preserves_files_try {A} (m : M A) caught (handler : exn -> M A) :
  preserves_files m -> (forall e, preserves_files (handler e)) ->
  preserves_files (try_except m caught handler).
Proof.
  intros Hm Hh w. unfold try_except. specialize (Hm w).
  destruct (m w) as [[a|e|] w1]; cbn [snd] in *; try exact Hm.
  destruct (caught e); cbn [snd]; [rewrite Hh|]; exact Hm.
Qed.

Lemma preserves_files_ret {A} (a : A) : preserves_files (ret a).
Proof. intros w. reflexivity. Qed.

Lemma preserves_files_raise {A} (e : exn) : preserves_files (@raise A e).
Proof. intros w. reflexivity. Qed.

Lemma preserves_files_lift {A} (x : outcome A) : preserves_files (lift x).
Proof. intros w. reflexivity. Qed.

Lemma preserves_files_console (g : list string) (msg : string) :
  preserves_files (console_print g msg).
Proof. intros w. unfold console_print. destruct (bool_decide _); reflexivity. Qed.

Lemma preserves_files_extract {float} (libs : libraries float) (file_path : string) :
  preserves_files (_extract_text libs file_path).
Proof.
  intros w. destruct (extract_text_cases libs file_path w) as [-> _].
  reflexivity.
Qed.

Create HintDb frames.
#[local] Hint Resolve preserves_files_ret preserves_files_raise
  preserves_files_lift preserves_files_console preserves_files_extract
  : frames.

Ltac frame :=
  repeat first
    [ apply preserves_files_bind; [|intros ?]
    | apply preserves_files_try; [|intros ?]
    | solve [auto with frames] ].

Lemma preserves_files_embeddings {float} (g : list string)
    (libs : libraries float) (self : self_) (chunks : list (list ascii)) :
  preserves_files (_generate_embeddings g libs self chunks).
Proof.
  unfold _generate_embeddings.
  destruct (_ && _);
    unfold _generate_remote_embeddings, _generate_local_embeddings; frame.
Qed.

(** X11.  Indexing changes no file, whatever its outcome: the
    downloaded PDF stays as it was, whether indexing is skipped, fails
    or goes through. *)
Theorem index_paper_preserves_files {float} (g : list string)
    (libs : libraries float) (fuel : nat) (self : self_) (paper : dict)
    (file_path : string) (w : world) :
  files (snd (index_paper g libs fuel self paper file_path w)) = files w.
Proof.
  revert w. change (preserves_files (index_paper g libs fuel self paper file_path)).
  unfold index_paper. destruct (negb _).
  - frame.
  - apply preserves_files_bind; [auto with frames | intros text].
    apply preserves_files_bind; [unfold chunk_text_call; auto with frames|].
    intros chunks.
    apply preserves_files_bind; [apply preserves_files_embeddings | intros emb].
    unfold _store_in_db. frame.
Qed.

Lemma never_returns_bind_l {A B} (m : M A) (k : A -> M B) :
  never_returns m -> never_returns (mbind_ m k).
Proof.
  intros Hm w b w' H. unfold mbind_ in H.
  destruct (m w) as [[a|e|] w1] eqn:Hmw; try discriminate.
  eapply Hm, Hmw.
Qed.

Lemma never_returns_bind_r {A B} (m : M A) (k : A -> M B) :
  (forall a, never_returns (k a)) -> never_returns (mbind_ m k).
Proof.
  intros Hk w b w' H. unfold mbind_ in H.
  destruct (m w) as [[a|e|] w1]; try discriminate. eapply Hk, H.
Qed.

Lemma never_returns_console_unbound (msg : string) :
  never_returns (console_print module_globals msg).
Proof. intros w a w' H. discriminate H. Qed.

Lemma never_returns_embeddings {float} (libs : libraries float) (self : self_)
    (chunks : list (list ascii)) :
  never_returns (_generate_embeddings module_globals libs self chunks).
Proof.
  unfold _generate_embeddings. destruct (_ && _).
  - apply never_returns_bind_l, never_returns_console_unbound.
  - intros w a w' H. unfold _generate_local_embeddings, try_except in H.
    unfold mbind_ at 1 in H. unfold lift in H.
    destruct (sentence_transformers libs) as [encode|]; discriminate H.
Qed.

Lemma index_paper_never_returns {float} (libs : libraries float)
    (fuel : nat) (self : self_) (paper : dict) (file_path : string) :
  never_returns (index_paper module_globals libs fuel self paper file_path).
Proof.
  unfold index_paper. destruct (negb _).
  - apply never_returns_bind_l, never_returns_console_unbound.
  - apply never_returns_bind_r; intros text.
    apply never_returns_bind_r; intros chunks.
    apply never_returns_bind_l, never_returns_embeddings.
Qed.

(** X13.  In the module as written indexing never returns normally, for
    any paper, file, configuration and libraries: the call raises or is
    still pending, because every path through it reaches a print on the
    unbound [console] unless extraction fails or the chunker is still
    looping first. *)
Theorem index_paper_never_succeeds {float} (libs : libraries float)
    (fuel : nat) (self : self_) (paper : dict) (file_path : string)
    (w : world) :
  (exists e,
     fst (index_paper module_globals libs fuel self paper file_path w) = Raise e)
  \/ fst (index_paper module_globals libs fuel self paper file_path w) = Pending.
Proof.
  destruct (index_paper module_globals libs fuel self paper file_path w)
    as [[s|e|] w'] eqn:H; cbn [fst]; [|eauto..].
  exfalso. eapply index_paper_never_returns, H.
Qed.

(** X14.  With a database host configured and a PDF whose extracted
    text is not empty, indexing does not get past the chunker: for any
    fuel the call is still pending, with the world unchanged. *)
Theorem index_paper_stuck_in_chunker {float} (g : list string)
    (libs : libraries float) (fuel : nat) (self : self_) (paper : dict)
    (file_path : string) (w : world) (text : string) :
  Config.truthy (Config.host (Config.database (config self))) = true ->
  _extract_text libs file_path w = (Ok text, w) ->
  text <> EmptyString ->
  index_paper g libs fuel self paper file_path w = (Pending, w).
Proof.
  intros Hhost Htext Hne. unfold index_paper. rewrite Hhost. cbn [negb].
  unfold mbind_ at 1. rewrite Htext.
  unfold mbind_ at 1. unfold chunk_text_call, lift.
  destruct (ChunkerFacts.chunk_text_spins_overlap (chars text)
              Chunker.default_chunk_size Chunker.default_overlap)
    with (fuel := fuel) as (st & -> & _).
  - destruct text; [congruence|]. unfold len. cbn. lia.
  - reflexivity.
  - reflexivity.
Qed.

Lemma index_paper_stuck_in_chunker_witness :
  index_paper Examples.globals_with_console Cases.one_page 100 Cases.indexer
    Examples.notes Examples.dest Examples.disk
  = (Pending, Examples.disk).
Proof.
  apply (index_paper_stuck_in_chunker Examples.globals_with_console
           Cases.one_page 100 Cases.indexer Examples.notes Examples.dest
           Examples.disk "some text");
    [reflexivity | reflexivity | discriminate].
Defined.

End DownloaderMore.

(** ** More on the index store *)

Module StoreMore.
Import Py SurrealDBClient Effects.

(** X15.  Deleting a paper on a connected client is two separate
    queries, the paper first and its chunks second.  When the second
    fails the first has already been sent: the call raises with the
    paper deleted and its chunks left behind.  When the first fails the
    second is never sent. *)
Theorem delete_paper_is_not_atomic (self : self_) (srv : server)
    (paper_id : string) (sent : list string) :
  client self = Some srv ->
  let del_paper := "DELETE FROM papers WHERE id = " +:+ q1 +:+ paper_id +:+ q1 in
  let del_chunks :=
    "DELETE FROM chunks WHERE paper_id = " +:+ q1 +:+ paper_id +:+ q1 in
  (forall v e,
     reply srv sent del_paper = Ok v ->
     reply srv (sent ++ [del_paper]) del_chunks = Raise e ->
     is_Exception e = true ->
     delete_paper self paper_id sent
     = (Raise (Exception_ "删除论文失败" e), sent ++ [del_paper; del_chunks]))
  /\ (forall e,
        reply srv sent del_paper = Raise e ->
        is_Exception e = true ->
        delete_paper self paper_id sent
        = (Raise (Exception_ "删除论文失败" e), sent ++ [del_paper])).
Proof.
  intros Hc del_paper del_chunks. split.
  - intros v e H1 H2 He. unfold delete_paper, query, wrap. rewrite Hc.
    fold del_paper del_chunks. rewrite H1, H2, He.
    rewrite <- app_assoc. reflexivity.
  - intros e H1 He. unfold delete_paper, query, wrap. rewrite Hc.
    fold del_paper. rewrite H1, He. reflexivity.
Qed.

Lemma delete_paper_is_not_atomic_witness :
  delete_paper Cases.chunk_delete_fails "W1" []
  = (Raise (Exception_ "删除论文失败" (LibraryError "SurrealException" "timeout")),
     ["DELETE FROM papers WHERE id = 'W1'";
      "DELETE FROM chunks WHERE paper_id = 'W1'"]).
Proof.
  destruct (delete_paper_is_not_atomic Cases.chunk_delete_fails
              (Server (fun sent _ =>
                         match sent with
                         | [] => Ok (VList [])
                         | _ => Raise (LibraryError "SurrealException" "timeout")
                         end))
              "W1" [] eq_refl) as [H _].
  apply (H (VList []) (LibraryError "SurrealException" "timeout")); reflexivity.
Defined.

(** X16.  A paper whose title is present but is not a string (a null
    title, say) cannot be inserted: on a connected client [add_paper]
    raises its wrapping exception around an [AttributeError] and sends
    nothing. *)
Theorem add_paper_rejects_null_title (self : self_) (srv : server)
    (paper : dict) (sent : list string) :
  client self = Some srv ->
  (forall s, dict_get paper "title" (VStr EmptyString) <> VStr s) ->
  add_paper self paper sent
  = (Raise (Exception_ "添加论文失败" AttributeError), sent).
Proof.
  intros Hc Ht. unfold add_paper, add_paper_query. rewrite Hc.
  destruct (dict_get paper "title" (VStr EmptyString)) eqn:Hv;
    try reflexivity.
  exfalso. eapply Ht. reflexivity.
Qed.

Lemma add_paper_rejects_null_title_witness :
  add_paper Examples.connected Cases.untitled []
  = (Raise (Exception_ "添加论文失败" AttributeError), []).
Proof.
  apply (add_paper_rejects_null_title Examples.connected
           (Server (fun _ _ => Ok (VStr EmptyString))) Cases.untitled []).
  - reflexivity.
  - intros s. discriminate.
Defined.



(** X18.  [connect] stores a client exactly when it returns [True]: in
    every other outcome the object is left as it was.  Without a host it
    returns [False] without consulting the library. *)
Theorem connect_sets_client_iff_true
    (surrealdb : option (string -> option string -> option string -> outcome server))
    (self : self_) :
  match connect surrealdb self with
  | (Ok true, self') =>
      (exists srv, client self' = Some srv)
      /\ host self' = host self /\ port self' = port self
  | (_, self') => self' = self
  end
  /\ (Config.truthy (host self) = false ->
      connect surrealdb self = (Ok false, self)).
Proof.
  unfold connect. split.
  - destruct (host self) as [h|]; [|reflexivity].
    destruct (String.eqb h EmptyString); [reflexivity|].
    destruct surrealdb as [mk|]; [|reflexivity].
    destruct (mk _ _ _) as [srv|e|]; [|destruct (is_Exception e)|];
      cbn; eauto.
  - destruct (host self) as [h|]; [|reflexivity].
    cbn [Config.truthy]. destruct (String.eqb h EmptyString); [reflexivity|].
    discriminate.
Qed.

(** On a client that is not connected every read is as silent as
    the mutations: it sends nothing and returns its empty value, an
    empty list for the two searches, [None] for a paper, an empty dict
    for the statistics; [create_tables] does nothing. *)
Theorem reads_without_client {float} (repr_float : float -> string)
    (self : self_) (paper_id text : string) (embedding : list float)
    (limit : Z) (sent : list string) :
  client self = None ->
  create_tables self sent = (Ok tt, sent)
  /\ search_papers self text limit sent = (Ok (VList []), sent)
  /\ semantic_search repr_float self embedding limit sent = (Ok (VList []), sent)
  /\ get_paper self paper_id sent = (Ok VNone, sent)
  /\ get_stats self sent = (Ok (VDict []), sent).
Proof.
  intros H. unfold create_tables, search_papers, semantic_search, get_paper,
    get_stats. rewrite H. repeat split.
Qed.

Lemma reads_without_client_witness :
  create_tables (__init__ Config.default) [] = (Ok tt, [])
  /\ search_papers (__init__ Config.default) "engines" 10 [] = (Ok (VList []), [])
  /\ semantic_search (fun _ : unit => "0.0") (__init__ Config.default) [tt] 5 []
     = (Ok (VList []), [])
  /\ get_paper (__init__ Config.default) "W1" [] = (Ok VNone, [])
  /\ get_stats (__init__ Config.default) [] = (Ok (VDict []), []).
Proof.
  apply (reads_without_client (fun _ : unit => "0.0") (__init__ Config.default)
           "W1" "engines" [tt] 5 []).
  reflexivity.
Defined.

(** X19.  Statistics need at least one row from each count: when the
    server answers the first count with an empty list, [get_stats]
    raises its wrapping exception around an [IndexError] and never asks
    for the second count. *)
Theorem get_stats_needs_a_row (self : self_) (srv : server)
    (sent : list string) :
  client self = Some srv ->
  reply srv sent "SELECT count() FROM papers" = Ok (VList []) ->
  get_stats self sent
  = (Raise (Exception_ "获取统计信息失败" IndexError),
     sent ++ ["SELECT count() FROM papers"]).
Proof.
  intros Hc Hr. unfold get_stats, count_of, query, wrap. rewrite Hc, Hr.
  reflexivity.
Qed.

Lemma get_stats_needs_a_row_witness :
  get_stats Cases.no_rows []
  = (Raise (Exception_ "获取统计信息失败" IndexError),
     ["SELECT count() FROM papers"]).
Proof.
  apply (get_stats_needs_a_row Cases.no_rows (Server (fun _ _ => Ok (VList []))) []);
    reflexivity.
Defined.

End StoreMore.

(** ** The PDF address of a paper *)

Module SearcherFacts.
Import Py Searcher Effects.

Lemma catchable_bind {A B} (x : outcome A) (k : A -> outcome B) :
  catchable x -> (forall a, catchable (k a)) -> catchable (bind x k).
Proof. destruct x; cbn; auto; contradiction. Qed.

Lemma catchable_get (v : value) (k : string) (d : value) : catchable (get v k d).
Proof. destruct v; exact I || reflexivity. Qed.

Lemma catchable_iter (v : value) : catchable (PaperDownloader.iter v).
Proof. destruct v; exact I || reflexivity. Qed.

Lemma catchable_lower (v : value) : catchable (lower_value v).
Proof. destruct v; exact I || reflexivity. Qed.

Ltac catch :=
  repeat first
    [ apply catchable_bind; [|intros ?]
    | apply catchable_get | apply catchable_iter | apply catchable_lower
    | exact I
    | match goal with |- catchable (if ?b then _ else _) => destruct b end
    | match goal with |- catchable (match ?o with Some _ => _ | None => _ end) =>
        destruct o end ].

Lemma catchable_arxiv (l : list value) : catchable (arxiv_location l).
Proof. induction l as [|loc l IH]; [exact I|]. cbn [arxiv_location]. catch; exact IH. Qed.

Lemma catchable_pubmed (l : list value) : catchable (pubmed_location l).
Proof. induction l as [|loc l IH]; [exact I|]. cbn [pubmed_location]. catch; exact IH. Qed.

Lemma catchable_oa (l : list value) : catchable (oa_location l).
Proof. induction l as [|loc l IH]; [exact I|]. cbn [oa_location]. catch; exact IH. Qed.

Lemma catchable_from_locations (l : list value) : catchable (from_locations l).
Proof.
  unfold from_locations.
  apply catchable_bind; [apply catchable_arxiv | intros [u|]; [exact I|]].
  apply catchable_bind; [apply catchable_pubmed | intros [u|]; [exact I|]].
  apply catchable_bind; [apply catchable_oa | intros [u|]; exact I].
Qed.

Lemma catchable_async (paper : value) : catchable (get_pdf_url_async paper).
Proof.
  unfold get_pdf_url_async.
  apply catchable_bind; [apply catchable_get | intros oa].
  apply catchable_bind; [apply catchable_get | intros is_oa].
  apply catchable_bind.
  - destruct (truthy is_oa); [|exact I].
    apply catchable_bind; [apply catchable_get | intros; exact I].
  - intros [u|]; [exact I|].
    apply catchable_bind; [apply catchable_get | intros locs].
    apply catchable_bind; [apply catchable_iter | intros l].
    apply catchable_from_locations.
Qed.

(** X21.  [get_pdf_url] always returns: whatever shape the paper has,
    any failure inside becomes [None]; a paper that is no dict gives
    [None]. *)
Theorem get_pdf_url_always_returns (paper : value) :
  (exists v, get_pdf_url paper = Ok v)
  /\ ((forall d, paper <> VDict d) -> get_pdf_url paper = Ok VNone).
Proof.
  split.
  - unfold get_pdf_url. pose proof (catchable_async paper) as H.
    destruct (get_pdf_url_async paper) as [v|e|]; cbn in H.
    + eauto.
    + rewrite H. eauto.
    + contradiction.
  - intros Hd. destruct paper; try reflexivity. exfalso. eapply Hd. reflexivity.
Qed.

(** X22.  An open-access address on the paper itself wins over
    everything in its locations: when [open_access.is_oa] and
    [open_access.oa_url] are both set, that address is the result. *)
Theorem open_access_url_wins (d oa : dict) (u : value) :
  dict_get d "open_access" (VDict []) = VDict oa ->
  truthy (dict_get oa "is_oa" (VBool false)) = true ->
  dict_get oa "oa_url" VNone = u ->
  truthy u = true ->
  get_pdf_url (VDict d) = Ok u.
Proof.
  intros Hoa Hflag Hu Ht. unfold get_pdf_url, get_pdf_url_async.
  cbn [get bind]. rewrite Hoa. cbn [get bind]. rewrite Hflag, Hu.
  cbn [bind]. rewrite Ht. reflexivity.
Qed.

Lemma open_access_url_wins_witness :
  get_pdf_url Cases.engines = Ok (VStr "http://example.org/e.pdf").
Proof.
  apply (open_access_url_wins _
           [("is_oa", VBool true); ("oa_url", VStr "http://example.org/e.pdf")]);
    reflexivity.
Defined.

(** X23.  One location with a source that is no dict (a null source,
    say) hides every location after it: when the paper has no
    open-access address of its own and its first location is such a
    one, the result is [None], whatever the other locations offer. *)
Theorem null_source_hides_locations (d oa loc : dict) (src : value)
    (rest : list value) :
  dict_get d "open_access" (VDict []) = VDict oa ->
  truthy (dict_get oa "is_oa" (VBool false)) = false ->
  dict_get d "locations" (VList []) = VList (VDict loc :: rest) ->
  dict_get loc "source" (VDict []) = src ->
  (forall sd, src <> VDict sd) ->
  get_pdf_url (VDict d) = Ok VNone.
Proof.
  intros Hoa Hflag Hlocs Hsrc Hnd. unfold get_pdf_url, get_pdf_url_async.
  cbn [get bind]. rewrite Hoa. cbn [get bind]. rewrite Hflag. cbn [bind].
  rewrite Hlocs. cbn [PaperDownloader.iter bind]. unfold from_locations.
  cbn [arxiv_location get bind]. rewrite Hsrc. destruct src; try reflexivity. exfalso. eapply Hnd. reflexivity.
Qed.

Lemma null_source_hides_locations_witness :
  get_pdf_url Cases.null_source = Ok VNone.
Proof.
  apply (null_source_hides_locations _ [("is_oa", VBool false)]
           [("source", VNone); ("is_oa", VBool true);
            ("landing_page_url", VStr "http://journal.example/1")]
           VNone
           [Cases.location Cases.arxiv_source true "http://arxiv.example/1"]);
    try reflexivity.
  intros sd. discriminate.
Defined.

(** A location that the first loop passes over: a dict whose source is
    a dict not hosted by arXiv. *)
Lemma arxiv_location_app (pre : list value) (loc : dict) (sd : dict)
    (post : list value) :
  Forall (fun l => exists ld s,
            l = VDict ld /\ dict_get ld "source" (VDict []) = VDict s
            /\ is_arXiv (dict_get s "host_organization" VNone) = false) pre ->
  dict_get loc "source" (VDict []) = VDict sd ->
  is_arXiv (dict_get sd "host_organization" VNone) = true ->
  arxiv_location (pre ++ VDict loc :: post)
  = Ok (Some (dict_get loc "landing_page_url" VNone)).
Proof.
  intros Hpre Hsrc Harx. induction Hpre as [|l pre (ld & s & -> & Hs & Hn) _ IH].
  - cbn [app arxiv_location get bind]. rewrite Hsrc. cbn [get bind].
    rewrite Harx. reflexivity.
  - cbn [app arxiv_location get bind]. rewrite Hs. cbn [get bind].
    rewrite Hn. exact IH.
Qed.

(** X24.  An arXiv location is preferred to any location before it,
    open access or not: when the paper has no open-access address of its
    own and the locations before the first arXiv one are well formed,
    the result is the landing page of that arXiv location. *)
Theorem arxiv_location_preferred (d oa loc sd : dict) (pre post : list value) :
  dict_get d "open_access" (VDict []) = VDict oa ->
  truthy (dict_get oa "is_oa" (VBool false)) = false ->
  dict_get d "locations" (VList []) = VList (pre ++ VDict loc :: post) ->
  Forall (fun l => exists ld s,
            l = VDict ld /\ dict_get ld "source" (VDict []) = VDict s
            /\ is_arXiv (dict_get s "host_organization" VNone) = false) pre ->
  dict_get loc "source" (VDict []) = VDict sd ->
  is_arXiv (dict_get sd "host_organization" VNone) = true ->
  get_pdf_url (VDict d) = Ok (dict_get loc "landing_page_url" VNone).
Proof.
  intros Hoa Hflag Hlocs Hpre Hsrc Harx. unfold get_pdf_url, get_pdf_url_async.
  cbn [get bind]. rewrite Hoa. cbn [get bind]. rewrite Hflag. cbn [bind].
  rewrite Hlocs. cbn [PaperDownloader.iter bind]. unfold from_locations.
  rewrite (arxiv_location_app pre loc sd post Hpre Hsrc Harx). reflexivity.
Qed.

Lemma arxiv_location_preferred_witness :
  get_pdf_url Cases.two_locations = Ok (VStr "http://arxiv.example/1").
Proof.
  apply (arxiv_location_preferred _ [("is_oa", VBool false)]
           [("source", Cases.arxiv_source); ("is_oa", VBool true);
            ("landing_page_url", VStr "http://arxiv.example/1")]
           [("display_name", VStr "arXiv (Cornell University)");
            ("host_organization", VStr "arXiv")]
           [Cases.location Cases.journal_source true "http://journal.example/1"]
           []);
    try reflexivity.
  constructor; [|constructor].
  eexists _, _. repeat split.
Defined.

End SearcherFacts.

(** ** The commands *)

Module DownloadFacts.
Import Py PaperDownloader Download Design DownloaderFacts DownloaderMore Effects.

(** *** Reading the ids of a batch *)

(** A list of characters that does not start with whitespace. *)
Lemma lstrip_chars_fixed (l : list ascii) :
  match l with c :: _ => isspace_char c = false | [] => True end ->
  lstrip_chars l = l.
Proof. destruct l as [|c l]; [reflexivity|]. cbn. intros ->. reflexivity. Qed.

Lemma lstrip_chars_head (l : list ascii) :
  match lstrip_chars l with c :: _ => isspace_char c = false | [] => True end.
Proof.
  induction l as [|c l IH]; [exact I|]. cbn [lstrip_chars].
  destruct (isspace_char c) eqn:Hc; [exact IH | exact Hc].
Qed.

Lemma strip_chars_head (l : list ascii) :
  match rev (lstrip_chars (rev (lstrip_chars l))) with
  | c :: _ => isspace_char c = false
  | [] => True
  end.
Proof.
  pose proof (lstrip_chars_head l) as Ha.
  destruct (lstrip_chars_suffix (rev (lstrip_chars l))) as [pre Hpre].
  set (b := lstrip_chars (rev (lstrip_chars l))) in *.
  assert (Hl : lstrip_chars l = rev b ++ rev pre).
  { rewrite <- (rev_involutive (lstrip_chars l)), Hpre, rev_app_distr.
    reflexivity. }
  rewrite Hl in Ha. destruct (rev b); [exact I | exact Ha].
Qed.

Lemma strip_idempotent (s : string) : strip (strip s) = strip s.
Proof.
  unfold strip at 1. rewrite chars_strip.
  set (r := rev (lstrip_chars (rev (lstrip_chars (chars s))))).
  rewrite (lstrip_chars_fixed r) by apply strip_chars_head.
  unfold r at 1. rewrite rev_involutive.
  rewrite (lstrip_chars_fixed (lstrip_chars _)) by apply lstrip_chars_head.
  reflexivity.
Qed.

(** X25.  The ids read from a batch file are never empty and carry no
    surrounding whitespace, blank lines give no id, and there are at
    most as many ids as lines. *)
Theorem paper_ids_are_clean (lines : list string) :
  Forall (fun id => id <> EmptyString /\ strip id = id) (paper_ids lines)
  /\ (length (paper_ids lines) <= length lines)%nat
  /\ (forall line, strip line = EmptyString -> paper_ids [line] = []).
Proof.
  unfold paper_ids. split; [|split].
  - induction lines as [|line lines IH]; [constructor|].
    cbn [flat_map]. destruct (String.eqb_spec (strip line) EmptyString);
      cbn [negb app]; [exact IH|].
    constructor; [|exact IH]. split; [assumption | apply strip_idempotent].
  - induction lines as [|line lines IH]; [reflexivity|].
    cbn [flat_map]. destruct (negb _); cbn [app length]; lia.
  - intros line H. cbn [flat_map]. rewrite H. reflexivity.
Qed.

(** *** Choosing papers from the last search *)

Lemma index_list_in_range (l : list value) (i : Z) :
  0 <= i -> i < len l ->
  exists v, index_list l i = Ok v /\ l !! Z.to_nat i = Some v.
Proof.
  intros H0 Hl. unfold index_list.
  destruct (Z.ltb_spec i 0); [lia|].
  destruct (Z.leb_spec 0 i); [|lia]. destruct (Z.ltb_spec i (len l)); [|lia].
  cbn [andb]. destruct (l !! Z.to_nat i) as [v|] eqn:Hv; [eauto|].
  apply lookup_ge_None in Hv. unfold len in Hl. lia.
Qed.

(** X26.  Choosing papers by their numbers never fails on a number out
    of range: such numbers (zero, negative, beyond the list) are dropped
    without a word, and every paper chosen is one of the search results,
    so at most as many papers as numbers come back. *)
Theorem papers_to_download_never_raises (results : list value)
    (indices_list : list Z) :
  exists papers,
    papers_to_download results indices_list = Ok papers
    /\ Forall (fun paper => paper ∈ results) papers
    /\ (length papers <= length indices_list)%nat
    /\ papers
       = omap (fun i => if (0 <? i) && (i <=? len results)
                        then results !! Z.to_nat (i - 1) else None)
              indices_list.
Proof.
  induction indices_list as [|i rest (papers & Hrun & Hin & Hlen & Heq)].
  - exists []. repeat split; constructor.
  - cbn [papers_to_download omap list_omap].
    destruct ((0 <? i) && (i <=? len results)) eqn:Hr.
    + apply andb_prop in Hr as [H1 H2].
      apply Z.ltb_lt in H1. apply Z.leb_le in H2.
      destruct (index_list_in_range results (i - 1)) as (v & Hv & Hlook);
        [lia..|].
      rewrite Hv, Hrun, Hlook. cbn [bind]. exists (v :: papers).
      split; [reflexivity|]. split; [|split].
      * constructor; [|exact Hin]. eapply list_elem_of_lookup_2, Hlook.
      * cbn [length]. lia.
      * rewrite <- Heq. reflexivity.
    + exists papers. split; [exact Hrun|]. split; [exact Hin|].
      split; [cbn [length]; lia | exact Heq].
Qed.

(** *** Titles and file names *)

Lemma chars_app (a b : string) : chars (a +:+ b) = chars a ++ chars b.
Proof.
  unfold chars. induction a as [|c a IH]; [reflexivity|].
  simpl. f_equal. exact IH.
Qed.

(** The title shown in the interactive list has at most 60
    characters: a longer one is cut to 57 and given three dots, a
    shorter one is shown as it is. *)
Theorem shown_title_fits (title : string) :
  len (chars (shown_title title)) <= 60
  /\ (len (chars title) <= 60 -> shown_title title = title)
  /\ (60 < len (chars title) ->
      chars (shown_title title) = take 57 (chars title) ++ chars "...").
Proof.
  unfold shown_title. destruct (Z.gtb_spec (len (chars title)) 60) as [Hlong|Hshort].
  - rewrite chars_app, chars_of_chars, slice_prefix by lia.
    change (Z.to_nat 57) with 57%nat. split; [|split].
    + unfold len in *. rewrite length_app, length_take.
      change (length (chars "...")) with 3%nat. lia.
    + lia.
    + reflexivity.
  - split; [lia|]. split; [reflexivity | lia].
Qed.

(** X27.  A download by address takes its file name from the title
    alone: the name is [unknown_2024_] followed by the sanitized title,
    whatever the address, and without a title it is always
    [unknown_2024_Unknown.pdf], so that two such downloads write to the
    same file. *)
Theorem url_download_name (title : option string) :
  filename (url_paper title)
  = Ok ("unknown_2024_"
        +:+ sanitized_title (if Config.truthy title
                             then default EmptyString title else "Unknown")
        +:+ ".pdf")
  /\ filename (url_paper None) = Ok "unknown_2024_Unknown.pdf"
  /\ filename (url_paper (Some EmptyString)) = Ok "unknown_2024_Unknown.pdf".
Proof.
  split; [|split; reflexivity].
  unfold filename, url_paper. cbn [dict_get String.eqb Ascii.eqb Bool.eqb].
  rewrite safe_title_str. reflexivity.
Qed.

(** *** The tallies of a batch *)

Section Batch.
Context {float : Type}.
Variable g : list string.
Variable libs : libraries float.
Variable fuel : nat.
Variable httpx_stream : string -> outcome response.
Variable os_open : string -> option exn.
Variable get_paper_by_id : string -> outcome value.
Variable str_exn : exn -> string.

Lemma batch_loop_tally (index : bool) (downloader : self_) (ids : list string) :
  forall s f w s' f' w',
    batch_loop g libs fuel httpx_stream os_open get_paper_by_id str_exn index downloader
      ids s f w = (Ok (s', f'), w') ->
    s' + f' = s + f + len ids /\ s <= s' /\ f <= f'.
Proof.
  induction ids as [|paper_id rest IH]; intros s f w s' f' w' H.
  - cbn [batch_loop] in H. unfold ret in H. injection H as <- <- _.
    unfold len. cbn [length]. lia.
  - cbn [batch_loop] in H. unfold mbind_ at 1 in H. unfold echo at 1 in H.
    unfold mbind_ at 1 in H.
    destruct (try_except _ _ _ _) as [[[]| |] w1]; try discriminate;
      apply IH in H; unfold len in *; cbn [length]; lia.
Qed.

(** X28.  Every id of a batch is counted once: when the loop ends, the
    successes and the failures add up to the number of ids, and neither
    counter has gone down. *)
Theorem batch_counts_every_id (index : bool) (downloader : self_)
    (ids : list string) (s f : Z) (w : world) :
  match fst (batch_loop g libs fuel httpx_stream os_open get_paper_by_id str_exn index
               downloader ids s f w) with
  | Ok (s', f') => s' + f' = s + f + len ids /\ s <= s' /\ f <= f'
  | _ => True
  end.
Proof.
  destruct (batch_loop g libs fuel httpx_stream os_open get_paper_by_id str_exn index
              downloader ids s f w) as [[[s' f']| |] w'] eqn:H; cbn [fst];
    [|exact I..].
  eapply batch_loop_tally, H.
Qed.

Lemma paper_ids_blank (ls : list string) :
  Forall (fun l => strip l = EmptyString) ls -> paper_ids ls = [].
Proof.
  induction 1 as [|l ls Hl _ IH]; [reflexivity|].
  unfold paper_ids in *. cbn [flat_map]. rewrite Hl, IH. reflexivity.
Qed.

(** X30.  A batch that cannot start stops with exit code 1 before any
    download: when no configuration is loaded, when the id file does not
    exist, or when all its lines are blank, the command prints one
    message, raises [Exit(1)] and leaves every file and the progress
    display untouched. *)
Theorem download_batch_refuses (expanduser : string -> string)
    (loaded : option Config.Config) (file_path : string) (file_exists : bool)
    (lines : outcome (list string)) (index : bool) (w : world) :
  loaded = None
  \/ file_exists = false
  \/ (exists ls, lines = Ok ls /\ Forall (fun l => strip l = EmptyString) ls) ->
  exists msg,
    download_batch g libs fuel httpx_stream os_open get_paper_by_id str_exn expanduser
      loaded file_path file_exists lines index w
    = (Raise (Exit 1),
       World (files w) (console_out w ++ [msg]) (progress_updates w)).
Proof.
  intros H. unfold download_batch.
  destruct loaded as [cfg|]; [|eexists; reflexivity].
  destruct H as [H|[H|(ls & -> & Hblank)]]; [discriminate| |].
  - rewrite H. eexists. reflexivity.
  - destruct file_exists; [|eexists; reflexivity].
    cbn [negb]. unfold mbind_ at 1. unfold lift at 1.
    rewrite (paper_ids_blank ls Hblank). eexists. reflexivity.
Qed.

End Batch.

Lemma download_batch_refuses_witness :
  exists msg,
    download_batch module_globals Examples.no_libraries 0
      (fun _ => Ok Cases.unsized_response) (fun _ => None) Cases.catalog (fun e => exn_class e)
      (fun d => d) (Some Config.default) "ids.txt" true (Ok ["  "; "   "])
      true Examples.disk
    = (Raise (Exit 1),
       World (files Examples.disk) (console_out Examples.disk ++ [msg])
             (progress_updates Examples.disk)).
Proof.
  apply (download_batch_refuses module_globals Examples.no_libraries 0
           (fun _ => Ok Cases.unsized_response) (fun _ => None) Cases.catalog
           (fun e => exn_class e) (fun d => d) (Some Config.default) "ids.txt"
           true (Ok ["  "; "   "]) true Examples.disk).
  right. right. exists ["  "; "   "]. split; [reflexivity|].
  repeat constructor.
Defined.

Section AsWritten.
Context {float : Type}.
Variable libs : libraries float.
Variable fuel : nat.
Variable httpx_stream : string -> outcome response.
Variable os_open : string -> option exn.
Variable get_paper_by_id : string -> outcome value.
Variable str_exn : exn -> string.

(** With indexing on and [downloader.py] as written, the [try] block
    never reaches its success. *)
Lemma batch_try_index_fails (downloader : self_) (paper_id : string)
    (w w' : world) (ok : bool) :
  batch_try module_globals libs fuel httpx_stream os_open get_paper_by_id true
    downloader paper_id w = (Ok ok, w') ->
  ok = false.
Proof.
  unfold batch_try. unfold mbind_ at 1. unfold lift at 1.
  destruct (get_paper_by_id paper_id) as [paper| |]; try discriminate.
  destruct (negb (truthy paper)).
  { unfold mbind_, echo, ret. intros H. injection H as <- _. reflexivity. }
  unfold mbind_ at 1. unfold lift at 1.
  destruct (Searcher.get_pdf_url paper) as [pdf_url| |]; try discriminate.
  destruct (negb (truthy pdf_url)).
  { unfold mbind_, echo, ret. intros H. injection H as <- _. reflexivity. }
  unfold mbind_ at 1.
  destruct (call_download_pdf httpx_stream os_open downloader paper pdf_url w)
    as [[file_path| |] w1]; try discriminate.
  unfold mbind_ at 1. unfold mbind_ at 1. unfold call_index_paper.
  destruct paper as [| | | | |d]; try discriminate.
  destruct (index_paper module_globals libs fuel downloader d file_path w1)
    as [[id| |] w2] eqn:Hidx; try discriminate.
  exfalso. eapply index_paper_never_returns, Hidx.
Qed.

Lemma batch_loop_index_fails (downloader : self_) (ids : list string) :
  forall s f w s' f' w',
    batch_loop module_globals libs fuel httpx_stream os_open get_paper_by_id str_exn
      true downloader ids s f w = (Ok (s', f'), w') ->
    s' = s /\ f' = f + len ids.
Proof.
  induction ids as [|paper_id rest IH]; intros s f w s' f' w' H.
  - cbn [batch_loop] in H. unfold ret in H. injection H as <- <- _.
    unfold len. cbn [length]. lia.
  - cbn [batch_loop] in H. unfold mbind_ at 1 in H. unfold echo at 1 in H.
    unfold mbind_ at 1 in H. unfold try_except in H.
    set (w0 := World _ _ _) in H.
    destruct (batch_try module_globals libs fuel httpx_stream os_open get_paper_by_id
                true downloader paper_id w0) as [[ok|e|] w1] eqn:Htry.
    + apply batch_try_index_fails in Htry as ->.
      apply IH in H. unfold len in *. cbn [length]. lia.
    + destruct (is_Exception e); [|discriminate].
      unfold mbind_, echo, ret in H. apply IH in H.
      unfold len in *. cbn [length]. lia.
    + discriminate.
Qed.

(** X29.  With indexing on (the default) and [downloader.py] as
    written, a batch that runs to its end reports no success at all:
    every id is counted as failed, also those whose PDF was downloaded,
    because indexing never returns normally. *)
Theorem batch_with_index_reports_no_success (downloader : self_)
    (ids : list string) (s f : Z) (w : world) :
  match fst (batch_loop module_globals libs fuel httpx_stream os_open get_paper_by_id
               str_exn true downloader ids s f w) with
  | Ok (s', f') => s' = s /\ f' = f + len ids
  | _ => True
  end.
Proof.
  destruct (batch_loop module_globals libs fuel httpx_stream os_open get_paper_by_id
              str_exn true downloader ids s f w) as [[[s' f']| |] w'] eqn:H;
    cbn [fst]; [|exact I..].
  eapply batch_loop_index_fails, H.
Qed.

End AsWritten.

(** A batch of two ids, one of them unknown to the catalog, with
    indexing on: the PDF of the known paper is downloaded in full, and
    both ids are reported as failed. *)
Example batch_downloads_but_reports_failure :
  let r := batch_loop module_globals Examples.no_libraries 0
             (fun _ => Ok Cases.unsized_response) (fun _ => None) Cases.catalog
             (fun e => exn_class e) true Examples.downloader
             ["W1"; "W2"] 0 0 (World ∅ [] []) in
  fst r = Ok (0, 2)
  /\ files (snd r) !! "/papers/Lovelace_1843_Engines.pdf"
     = Some [Byte.x25; Byte.x50; Byte.x44].
Proof. split; vm_compute; reflexivity. Qed.

(** The same batch without indexing: the known paper is a success. *)
Example batch_without_index_succeeds :
  fst (batch_loop module_globals Examples.no_libraries 0
         (fun _ => Ok Cases.unsized_response) (fun _ => None) Cases.catalog
         (fun e => exn_class e) false Examples.downloader
         ["W1"; "W2"] 0 0 (World ∅ [] []))
  = Ok (1, 1).
Proof. vm_compute. reflexivity. Qed.

End DownloadFacts.
